(** * terraform-provider-rgw: user, bucket and plan-modifier reconciliation

    A shallow embedding of the provider's resource operations
    ([UserResource] Create/Read/Update/Delete, [BucketResource] Read/Delete)
    and of its plan modifiers, with the remote RadosGW admin and S3 clients
    kept abstract: every remote call steps an environment of type [W] and is
    appended to a call trace. *)

From Stdlib Require Import String Ascii List ZArith Bool Lia DecimalString.
From stdpp Require Import base gmap strings.
Import ListNotations.

(** ** Framework values: terraform-plugin-framework [types] *)

Module types.

(** A framework attribute value is null, unknown, or a known Go value. *)
Inductive Value (A : Type) : Type :=
| Null
| Unknown
| Known (a : A).
Arguments Null {A}.
Arguments Unknown {A}.
Arguments Known {A} a.

Definition IsNull {A} (v : Value A) : bool :=
  match v with Null => true | _ => false end.

Definition IsUnknown {A} (v : Value A) : bool :=
  match v with Unknown => true | _ => false end.

(** [ValueString], [ValueBool], [ValueInt64]: the zero value of the Go
    type when the attribute is null or unknown. *)
Definition ValueString (v : Value string) : string :=
  match v with Known s => s | _ => EmptyString end.

Definition ValueBool (v : Value bool) : bool :=
  match v with Known b => b | _ => false end.

Definition ValueInt64 (v : Value Z) : Z :=
  match v with Known n => n | _ => 0%Z end.

Definition StringValue (s : string) : Value string := Known s.
Definition StringNull : Value string := Null.
Definition StringUnknown : Value string := Unknown.
Definition BoolValue (b : bool) : Value bool := Known b.
Definition Int64Value (n : Z) : Value Z := Known n.

End types.

Import types.

#[global] Instance Value_eq_dec {A} `{EqDecision A} : EqDecision (Value A).
Proof. solve_decision. Defined.

(** ** Diagnostics *)

Module diag.

Inductive Severity := SeverityError | SeverityWarning.

Record Diagnostic := {
  severity : Severity;
  attribute : option string;   (* path.Root(name) of an attribute diagnostic *)
  summary : string;
  detail : string
}.

#[global] Instance Severity_eq_dec : EqDecision Severity.
Proof. solve_decision. Defined.

#[global] Instance Diagnostic_eq_dec : EqDecision Diagnostic.
Proof. solve_decision. Defined.

Definition Diagnostics := list Diagnostic.

(** [Diagnostics.Append] skips a diagnostic that is already contained. *)
Definition Append1 (d : Diagnostic) (diags : Diagnostics) : Diagnostics :=
  if bool_decide (d ∈ diags) then diags else diags ++ [d].

Definition AddError (sum det : string) (diags : Diagnostics) : Diagnostics :=
  Append1 {| severity := SeverityError; attribute := None;
             summary := sum; detail := det |} diags.

Definition AddAttributeError (root sum det : string) (diags : Diagnostics)
  : Diagnostics :=
  Append1 {| severity := SeverityError; attribute := Some root;
             summary := sum; detail := det |} diags.

Definition is_error (d : Diagnostic) : bool :=
    match severity d with SeverityError => true | SeverityWarning => false end.

Definition HasError (diags : Diagnostics) : bool := existsb is_error diags.

End diag.

(** ** Plan modifiers for optional computed attributes *)

Module planmodifier.

Record Request (A : Type) := {
  ConfigValue : Value A;
  PlanValue : Value A;
  StateValue : Value A
}.
Arguments ConfigValue {A} _.
Arguments PlanValue {A} _.
Arguments StateValue {A} _.

Record Response (A : Type) := {
  RespPlanValue : Value A;
  RespDiagnostics : diag.Diagnostics
}.
Arguments RespPlanValue {A} _.
Arguments RespDiagnostics {A} _.

(** The framework hands every attribute plan modifier a response whose
    planned value is the request's planned value. *)
Definition initial {A} (req : Request A) : Response A :=
  {| RespPlanValue := PlanValue req; RespDiagnostics := [] |}.

Definition setPlanValue {A} (v : Value A) (resp : Response A) : Response A :=
  {| RespPlanValue := v; RespDiagnostics := RespDiagnostics resp |}.

End planmodifier.

Import planmodifier.

Record stringDefaultModifier := { string_Default : string }.
Record int64DefaultModifier := { int64_Default : Z }.
Record boolDefaultModifier := { bool_Default : bool }.

Definition PlanModifyString (m : stringDefaultModifier)
  (req : Request string) (resp : Response string) : Response string :=
  if negb (IsNull (PlanValue req))
     && negb (IsNull (ConfigValue req) && IsUnknown (PlanValue req))
  then resp
  else setPlanValue (StringValue (string_Default m)) resp.

Definition PlanModifyInt64 (m : int64DefaultModifier)
  (req : Request Z) (resp : Response Z) : Response Z :=
  if negb (IsNull (PlanValue req))
     && negb (IsNull (ConfigValue req) && IsUnknown (PlanValue req))
  then resp
  else setPlanValue (Int64Value (int64_Default m)) resp.

Definition PlanModifyBool (m : boolDefaultModifier)
  (req : Request bool) (resp : Response bool) : Response bool :=
  if negb (IsNull (PlanValue req))
     && negb (IsNull (ConfigValue req) && IsUnknown (PlanValue req))
  then resp
  else setPlanValue (BoolValue (bool_Default m)) resp.

(** The modifiers the user schema attaches to [op_mask], [max_buckets] and
    [suspended]. *)
Definition op_mask_modifier : stringDefaultModifier :=
  {| string_Default := "read, write, delete" |}.
Definition max_buckets_modifier : int64DefaultModifier :=
  {| int64_Default := 1000 |}.
Definition suspended_modifier : boolDefaultModifier :=
  {| bool_Default := false |}.

(** The planned value of an attribute after its default modifier ran. *)
Definition plan_op_mask (req : Request string) : Value string :=
  RespPlanValue (PlanModifyString op_mask_modifier req (initial req)).
Definition plan_max_buckets (req : Request Z) : Value Z :=
  RespPlanValue (PlanModifyInt64 max_buckets_modifier req (initial req)).
Definition plan_suspended (req : Request bool) : Value bool :=
  RespPlanValue (PlanModifyBool suspended_modifier req (initial req)).

(** The resolution rule in the words of the specification: a declared
    non-null value is used verbatim; otherwise the default is set when the
    plan is unknown and the declared value is null; otherwise the planned
    value is left as it is. *)
Definition spec_resolve {A} (D : A) (config plan : Value A) : Value A :=
  if negb (IsNull config) then config
  else if IsUnknown plan && IsNull config then Known D
  else plan.

(** The condition under which the modifiers assign the default: the plan is
    null, or the plan is unknown and the declared value is null. *)
Definition sets_default {A} (config plan : Value A) : bool :=
  IsNull plan || (IsNull config && IsUnknown plan).

(** ** Go library functions the resources use *)

Module strings.

(** The text before and after the first occurrence of the byte [sep]. *)
Fixpoint Cut (s : string) (sep : ascii) : option (string * string) :=
  match s with
  | EmptyString => None
  | String a s' =>
      if Ascii.eqb a sep then Some (EmptyString, s')
      else match Cut s' sep with
           | Some (before, after) => Some (String a before, after)
           | None => None
           end
  end.

(** [strings.SplitN(s, sep, n)] for a one-byte separator: at most [n]
    substrings, the last one being the unsplit remainder. *)
Fixpoint SplitN (s : string) (sep : ascii) (n : nat) : list string :=
  match n with
  | 0 => []
  | 1 => [s]
  | S n' =>
      match Cut s sep with
      | None => [s]
      | Some (before, after) => before :: SplitN after sep n'
      end
  end.

Fixpoint Contains (s : string) (c : ascii) : bool :=
  match s with
  | EmptyString => false
  | String a s' => Ascii.eqb a c || Contains s' c
  end.

End strings.

Module fmt.

(** The verb [%d] of [fmt.Sprintf] at a length. *)
Definition d (n : nat) : string := NilEmpty.string_of_uint (Nat.to_uint n).

End fmt.

Module errors.

(** The errors the clients return: an admin API status error carrying its
    reason code, an S3 [smithy.APIError] carrying its error code, or any
    other error.  Every error has its [Error()] text. *)
Inductive error :=
| StatusError (code : string) (text : string)
| APIError (code : string) (text : string)
| Other (text : string).

Definition Error (e : error) : string :=
  match e with
  | StatusError _ t => t
  | APIError _ t => t
  | Other t => t
  end.

(** [errors.Is(err, reason)] for an admin [errorReason]. *)
Definition Is (e : error) (reason : string) : bool :=
  match e with
  | StatusError code _ => String.eqb code reason
  | _ => false
  end.

(** [errors.As(err, &ae)] for [smithy.APIError], giving [ae.ErrorCode()]. *)
Definition As (e : error) : option string :=
  match e with
  | APIError code _ => Some code
  | _ => None
  end.

Inductive result (A : Type) : Type :=
| Ok (a : A)
| Err (e : error).
Arguments Ok {A} a.
Arguments Err {A} e.

End errors.

Import errors.

(** ** The admin API's request and response structures (go-ceph) *)

Module admin.

Definition ErrNoSuchUser : string := "NoSuchUser".
Definition ErrAccessDenied : string := "AccessDenied".

Record UserCapSpec := {
  Type_ : string;
  Perm : string
}.

Record UserKeySpec := {
  UID : string;
  AccessKey : string;
  SecretKey : string;
  key_KeyType : string;
  key_GenerateKey : option bool
}.

Record User := {
  ID : string;
  DisplayName : string;
  Email : string;
  Suspended : option Z;
  MaxBuckets : option Z;
  Keys : list UserKeySpec;
  Caps : list UserCapSpec;
  OpMask : string;
  KeyType : string;
  GenerateKey : option bool;
  PurgeData : option Z
}.

(** [k.UID = uid] on a copy of the key. *)
Definition with_UID (uid : string) (k : UserKeySpec) : UserKeySpec :=
  {| UID := uid; AccessKey := AccessKey k; SecretKey := SecretKey k;
     key_KeyType := key_KeyType k; key_GenerateKey := key_GenerateKey k |}.

End admin.

(** ** Remote clients, call traces and the operation monad *)

Inductive Call :=
| CallCreateUser (u : admin.User)
| CallGetUser (u : admin.User)
| CallModifyUser (u : admin.User)
| CallRemoveUser (u : admin.User)
| CallCreateKey (k : admin.UserKeySpec)
| CallRemoveKey (k : admin.UserKeySpec)
| CallCreateBucket (bucket : string)
| CallHeadBucket (bucket : string)
| CallDeleteBucket (bucket : string).

Definition is_key_call (c : Call) : bool :=
  match c with
  | CallCreateKey _ | CallRemoveKey _ => true
  | _ => false
  end.

(** [RgwClient]: the admin API and the S3 client, over an environment [W]
    that each call may change; [rand_Intn] is the process's random source.
    [CreateKey] returns a pointer to a key slice: [Some l] is a pointer to
    the slice [l] (a nil slice and an empty one are both [[]]), [None] the
    nil pointer, which the admin API never returns together with a nil
    error. *)
Record RgwClient (W : Type) := {
  Admin_CreateUser : admin.User -> W -> result admin.User * W;
  Admin_GetUser : admin.User -> W -> result admin.User * W;
  Admin_ModifyUser : admin.User -> W -> result admin.User * W;
  Admin_RemoveUser : admin.User -> W -> option error * W;
  Admin_CreateKey :
    admin.UserKeySpec -> W -> result (option (list admin.UserKeySpec)) * W;
  Admin_RemoveKey : admin.UserKeySpec -> W -> option error * W;
  S3_CreateBucket : string -> W -> option error * W;
  S3_HeadBucket : string -> W -> option error * W;
  S3_DeleteBucket : string -> W -> option error * W;
  rand_Intn : nat -> W -> nat * W
}.
Arguments Admin_CreateUser {W} _ _ _.
Arguments Admin_GetUser {W} _ _ _.
Arguments Admin_ModifyUser {W} _ _ _.
Arguments Admin_RemoveUser {W} _ _ _.
Arguments Admin_CreateKey {W} _ _ _.
Arguments Admin_RemoveKey {W} _ _ _.
Arguments S3_CreateBucket {W} _ _ _.
Arguments S3_HeadBucket {W} _ _ _.
Arguments S3_DeleteBucket {W} _ _ _.
Arguments rand_Intn {W} _ _ _.

Module resource.

(** What an operation did to the stored record: nothing, removed it
    ([State.RemoveResource]) or saved a record ([State.Set]). *)
Inductive StateEffect (M : Type) : Type :=
| Untouched
| Removed
| Saved (data : M).
Arguments Untouched {M}.
Arguments Removed {M}.
Arguments Saved {M} data.

Record Response (M : Type) := {
  State : StateEffect M;
  Private : gmap string string;
  Diagnostics : diag.Diagnostics
}.
Arguments State {M} _.
Arguments Private {M} _.
Arguments Diagnostics {M} _.

End resource.

Import resource.

Record Machine (W M : Type) := {
  world : W;
  calls : list Call;
  resp : Response M
}.
Arguments world {W M} _.
Arguments calls {W M} _.
Arguments resp {W M} _.

(** An operation step yields a value, returns from the operation early, or
    panics. *)
Inductive Outcome (A : Type) : Type :=
| Val (a : A)
| Return
| Panic (msg : string).
Arguments Val {A} a.
Arguments Return {A}.
Arguments Panic {A} msg.

Definition Op (W M A : Type) : Type := Machine W M -> Outcome A * Machine W M.

Definition ret {W M A} (a : A) : Op W M A := fun m => (Val a, m).

Definition bind {W M A B} (c : Op W M A) (k : A -> Op W M B) : Op W M B :=
  fun m =>
    match c m with
    | (Val a, m') => k a m'
    | (Return, m') => (Return, m')
    | (Panic msg, m') => (Panic msg, m')
    end.

Notation "x <- c ;; k" := (bind c (fun x => k))
  (at level 100, c at next level, right associativity).
Notation "c ;;; k" := (bind c (fun _ => k))
  (at level 100, right associativity).

Definition return_ {W M A} : Op W M A := fun m => (Return, m).
Definition panic {W M A} (msg : string) : Op W M A := fun m => (Panic msg, m).

Definition modify_resp {W M} (f : Response M -> Response M) : Op W M unit :=
  fun m => (Val tt, {| world := world m; calls := calls m; resp := f (resp m) |}).

Definition AddError {W M} (sum det : string) : Op W M unit :=
  modify_resp (fun r =>
    {| State := State r; Private := Private r;
       Diagnostics := diag.AddError sum det (Diagnostics r) |}).

Definition AddAttributeError {W M} (root sum det : string) : Op W M unit :=
  modify_resp (fun r =>
    {| State := State r; Private := Private r;
       Diagnostics := diag.AddAttributeError root sum det (Diagnostics r) |}).

Definition SetKey {W M} (key value : string) : Op W M unit :=
  modify_resp (fun r =>
    {| State := State r; Private := <[key := value]> (Private r);
       Diagnostics := Diagnostics r |}).

Definition StateSet {W M} (data : M) : Op W M unit :=
  modify_resp (fun r =>
    {| State := Saved data; Private := Private r;
       Diagnostics := Diagnostics r |}).

Definition RemoveResource {W M} : Op W M unit :=
  modify_resp (fun r =>
    {| State := Removed; Private := Private r;
       Diagnostics := Diagnostics r |}).

(** A remote call: step the environment and log the call. *)
Definition remote {W M A} (c : Call) (f : W -> A * W) : Op W M A :=
  fun m =>
    let '(a, w') := f (world m) in
    (Val a, {| world := w'; calls := calls m ++ [c]; resp := resp m |}).

(** A draw from the random source; not a remote call. *)
Definition Intn {W M} (client : RgwClient W) (n : nat) : Op W M nat :=
  fun m =>
    let '(i, w') := rand_Intn client n (world m) in
    (Val i, {| world := w'; calls := calls m; resp := resp m |}).

(** Running an operation from the prior private state in environment [w]. *)
Definition run {W M} (op : Op W M unit) (private : gmap string string) (w : W)
  : Outcome unit * Machine W M :=
  op {| world := w; calls := [];
        resp := {| State := Untouched; Private := private;
                   Diagnostics := [] |} |}.

Definition panicked {A} (o : Outcome A) : bool :=
  match o with Panic _ => true | _ => false end.

(** ** The user resource *)

Definition accessKeyBytes : string := "0123456789ABCDEFGHIJKLMNOPQRSTUVWXYZ".

Record UserCapModel := {
  Type_ : Value string;
  Perm : Value string
}.

Record UserResourceModel := {
  Id : Value string;
  Username : Value string;
  DisplayName : Value string;
  Email : Value string;
  GenerateS3Credentials : Value bool;
  ExclusiveS3Credentials : Value bool;
  Caps : list UserCapModel;
  OpMask : Value string;
  MaxBuckets : Value Z;
  Suspended : Value bool;
  Tenant : Value string;
  AccessKey : Value string;
  SecretKey : Value string;
  PurgeDataOnDelete : Value bool
}.

(** Field assignments [data.F = v]. *)
Definition set_Id (v : Value string) (d : UserResourceModel) :=
  Build_UserResourceModel v (Username d) (DisplayName d) (Email d)
    (GenerateS3Credentials d) (ExclusiveS3Credentials d) (Caps d) (OpMask d)
    (MaxBuckets d) (Suspended d) (Tenant d) (AccessKey d) (SecretKey d)
    (PurgeDataOnDelete d).
Definition set_Username (v : Value string) (d : UserResourceModel) :=
  Build_UserResourceModel (Id d) v (DisplayName d) (Email d)
    (GenerateS3Credentials d) (ExclusiveS3Credentials d) (Caps d) (OpMask d)
    (MaxBuckets d) (Suspended d) (Tenant d) (AccessKey d) (SecretKey d)
    (PurgeDataOnDelete d).
Definition set_DisplayName (v : Value string) (d : UserResourceModel) :=
  Build_UserResourceModel (Id d) (Username d) v (Email d)
    (GenerateS3Credentials d) (ExclusiveS3Credentials d) (Caps d) (OpMask d)
    (MaxBuckets d) (Suspended d) (Tenant d) (AccessKey d) (SecretKey d)
    (PurgeDataOnDelete d).
Definition set_Email (v : Value string) (d : UserResourceModel) :=
  Build_UserResourceModel (Id d) (Username d) (DisplayName d) v
    (GenerateS3Credentials d) (ExclusiveS3Credentials d) (Caps d) (OpMask d)
    (MaxBuckets d) (Suspended d) (Tenant d) (AccessKey d) (SecretKey d)
    (PurgeDataOnDelete d).
Definition set_ExclusiveS3Credentials (v : Value bool) (d : UserResourceModel) :=
  Build_UserResourceModel (Id d) (Username d) (DisplayName d) (Email d)
    (GenerateS3Credentials d) v (Caps d) (OpMask d)
    (MaxBuckets d) (Suspended d) (Tenant d) (AccessKey d) (SecretKey d)
    (PurgeDataOnDelete d).
Definition set_Caps (v : list UserCapModel) (d : UserResourceModel) :=
  Build_UserResourceModel (Id d) (Username d) (DisplayName d) (Email d)
    (GenerateS3Credentials d) (ExclusiveS3Credentials d) v (OpMask d)
    (MaxBuckets d) (Suspended d) (Tenant d) (AccessKey d) (SecretKey d)
    (PurgeDataOnDelete d).
Definition set_MaxBuckets (v : Value Z) (d : UserResourceModel) :=
  Build_UserResourceModel (Id d) (Username d) (DisplayName d) (Email d)
    (GenerateS3Credentials d) (ExclusiveS3Credentials d) (Caps d) (OpMask d)
    v (Suspended d) (Tenant d) (AccessKey d) (SecretKey d)
    (PurgeDataOnDelete d).
Definition set_Suspended (v : Value bool) (d : UserResourceModel) :=
  Build_UserResourceModel (Id d) (Username d) (DisplayName d) (Email d)
    (GenerateS3Credentials d) (ExclusiveS3Credentials d) (Caps d) (OpMask d)
    (MaxBuckets d) v (Tenant d) (AccessKey d) (SecretKey d)
    (PurgeDataOnDelete d).
Definition set_Tenant (v : Value string) (d : UserResourceModel) :=
  Build_UserResourceModel (Id d) (Username d) (DisplayName d) (Email d)
    (GenerateS3Credentials d) (ExclusiveS3Credentials d) (Caps d) (OpMask d)
    (MaxBuckets d) (Suspended d) v (AccessKey d) (SecretKey d)
    (PurgeDataOnDelete d).
Definition set_AccessKey (v : Value string) (d : UserResourceModel) :=
  Build_UserResourceModel (Id d) (Username d) (DisplayName d) (Email d)
    (GenerateS3Credentials d) (ExclusiveS3Credentials d) (Caps d) (OpMask d)
    (MaxBuckets d) (Suspended d) (Tenant d) v (SecretKey d)
    (PurgeDataOnDelete d).
Definition set_SecretKey (v : Value string) (d : UserResourceModel) :=
  Build_UserResourceModel (Id d) (Username d) (DisplayName d) (Email d)
    (GenerateS3Credentials d) (ExclusiveS3Credentials d) (Caps d) (OpMask d)
    (MaxBuckets d) (Suspended d) (Tenant d) (AccessKey d) v
    (PurgeDataOnDelete d).

Module UserResource.

(** The remote id Create sends: the bare username, or
    [fmt.Sprintf("%s$%s", tenant, username)] when a tenant is set. *)
Definition rgwUserID (data : UserResourceModel) : string :=
  if IsNull (Tenant data) then ValueString (Username data)
  else ValueString (Tenant data) +:+ "$" +:+ ValueString (Username data).

(** The user structure Create sends to the admin API. *)
Definition Create_request (data : UserResourceModel) : admin.User :=
  let generateKey :=
    ValueBool (GenerateS3Credentials data)
    || IsNull (GenerateS3Credentials data) in
  {| admin.ID := rgwUserID data;
     admin.DisplayName := ValueString (DisplayName data);
     admin.Email := ValueString (Email data);
     admin.Suspended := Some (if ValueBool (Suspended data) then 1 else 0)%Z;
     admin.MaxBuckets := Some (ValueInt64 (MaxBuckets data));
     admin.Keys := [];
     admin.Caps :=
       map (fun c => {| admin.Type_ := ValueString (Type_ c);
                        admin.Perm := ValueString (Type_ c) |}) (Caps data);
     admin.OpMask := ValueString (OpMask data);
     admin.KeyType := if generateKey then "s3" else "";
     admin.GenerateKey := Some generateKey;
     admin.PurgeData := None |}.

(** The user structure Update sends to the admin API. *)
Definition Update_request (data : UserResourceModel) : admin.User :=
  {| admin.ID := ValueString (Id data);
     admin.DisplayName := ValueString (DisplayName data);
     admin.Email := ValueString (Email data);
     admin.Suspended := Some (if ValueBool (Suspended data) then 1 else 0)%Z;
     admin.MaxBuckets := Some (ValueInt64 (MaxBuckets data));
     admin.Keys := [];
     admin.Caps :=
       map (fun c => {| admin.Type_ := ValueString (Type_ c);
                        admin.Perm := ValueString (Type_ c) |}) (Caps data);
     admin.OpMask := ValueString (OpMask data);
     admin.KeyType := "";
     admin.GenerateKey := Some false;
     admin.PurgeData := None |}.

(** The user structure Read sends: only the id is set. *)
Definition Read_request (data : UserResourceModel) : admin.User :=
  {| admin.ID := ValueString (Id data); admin.DisplayName := "";
     admin.Email := ""; admin.Suspended := None; admin.MaxBuckets := None;
     admin.Keys := []; admin.Caps := []; admin.OpMask := "";
     admin.KeyType := ""; admin.GenerateKey := None;
     admin.PurgeData := None |}.

(** The user structure Delete sends: the id and the purge flag. *)
Definition Delete_request (data : UserResourceModel) : admin.User :=
  let purgeData := (if ValueBool (PurgeDataOnDelete data) then 1 else 0)%Z in
  {| admin.ID := ValueString (Id data); admin.DisplayName := "";
     admin.Email := ""; admin.Suspended := None; admin.MaxBuckets := None;
     admin.Keys := []; admin.Caps := []; admin.OpMask := "";
     admin.KeyType := ""; admin.GenerateKey := None;
     admin.PurgeData := Some purgeData |}.

(** The key-creation request Update sends for access key [ak]. *)
Definition CreateKey_request (uid ak : string) : admin.UserKeySpec :=
  {| admin.UID := uid; admin.AccessKey := ak; admin.SecretKey := "";
     admin.key_KeyType := "s3"; admin.key_GenerateKey := Some true |}.

(** Read's decomposition of the remote id into tenant and username. *)
Definition splitIdentity (id : string) (data : UserResourceModel)
  : UserResourceModel :=
  match strings.SplitN id "$" 2 with
  | [tenant; username] =>
      set_Tenant (StringValue tenant) (set_Username (StringValue username) data)
  | _ => set_Tenant StringNull (set_Username (StringValue id) data)
  end.

(** Read's merge of the remote e-mail, caps, quota and suspension. *)
Definition Read_attributes (user : admin.User) (data : UserResourceModel)
  : UserResourceModel :=
  let data := set_DisplayName (StringValue (admin.DisplayName user)) data in
  let data :=
    if (0 <? String.length (admin.Email user))%nat || negb (IsNull (Email data))
    then set_Email (StringValue (admin.Email user)) data else data in
  let data :=
    if String.eqb (admin.Email user) ""
       && (0 <? String.length (ValueString (Email data)))%nat
    then set_Email (StringValue "") data else data in
  let data :=
    if (0 <? length (admin.Caps user))%nat
    then set_Caps
           (map (fun c => {| Type_ := StringValue (admin.Type_ c);
                             Perm := StringValue (admin.Perm c) |})
                (admin.Caps user)) data
    else data in
  let data :=
    match admin.MaxBuckets user with
    | Some n => set_MaxBuckets (Int64Value n) data
    | None => data
    end in
  match admin.Suspended user with
  | Some n =>
      if (n <? 1)%Z then set_Suspended (BoolValue false) data
      else set_Suspended (BoolValue true) data
  | None => data
  end.

Section Operations.

Context {W : Type} (client : RgwClient W).

#[local] Abbreviation Op := (Op W UserResourceModel).

Definition Create (data : UserResourceModel) : Op unit :=
  let rgwUser := Create_request data in
  let generateKey :=
    ValueBool (GenerateS3Credentials data)
    || IsNull (GenerateS3Credentials data) in
  r <- remote (CallCreateUser rgwUser) (Admin_CreateUser client rgwUser) ;;
  match r with
  | Err err => AddError "could not create user" (Error err) ;;; return_
  | Ok createdUser =>
      let data := set_Id (StringValue (admin.ID createdUser)) data in
      data <-
        (if generateKey then
           match admin.Keys createdUser with
           | [k] =>
               ret (set_SecretKey (StringValue (admin.SecretKey k))
                      (set_AccessKey (StringValue (admin.AccessKey k)) data))
           | keys =>
               AddAttributeError "access_key"
                 "api didn't return exactly one s3 key pair"
                 ("expected one s3 api key pair in api response, got "
                  +:+ fmt.d (length keys)) ;;;
               AddAttributeError "secret_key"
                 "api didn't return exactly one s3 key pair"
                 ("expected one s3 api key pair in api response, got "
                  +:+ fmt.d (length keys)) ;;;
               ret data
           end
         else
           ret (set_SecretKey StringNull (set_AccessKey StringNull data))) ;;
      StateSet data
  end.

(** Read's credential step, over the keys the remote user has. *)
Fixpoint Read_find_key (keys : list admin.UserKeySpec)
  (data : UserResourceModel) : Op (bool * UserResourceModel) :=
  match keys with
  | [] => ret (false, data)
  | k :: rest =>
      if String.eqb (admin.AccessKey k) (ValueString (AccessKey data)) then
        SetKey "mark_unknown_access_key" "0" ;;;
        SetKey "mark_unknown_secret_key" "0" ;;;
        ret (true, set_SecretKey (StringValue (admin.SecretKey k)) data)
      else Read_find_key rest data
  end.

Definition Read (data : UserResourceModel) : Op unit :=
  let reqUser := Read_request data in
  r <- remote (CallGetUser reqUser) (Admin_GetUser client reqUser) ;;
  match r with
  | Err err =>
      if Is err admin.ErrNoSuchUser then RemoveResource ;;; return_
      else AddError "could not get user" (Error err) ;;; return_
  | Ok user =>
      if negb (String.eqb (ValueString (Id data)) (admin.ID user)) then
        AddError "api returned wrong user"
          ("expected user '" +:+ ValueString (Id data) +:+ "', got '"
           +:+ admin.ID user +:+ "'") ;;;
        return_
      else
        let data := splitIdentity (admin.ID user) data in
        let data := Read_attributes user data in
        data <-
          (if ValueBool (GenerateS3Credentials data)
              || IsNull (GenerateS3Credentials data)
           then
             fd <-
               (if IsNull (AccessKey data) || IsUnknown (AccessKey data) then
                  SetKey "mark_unknown_access_key" "1" ;;; ret (false, data)
                else Read_find_key (admin.Keys user) data) ;;
             let '(found, data) := fd in
             (if negb found then SetKey "mark_unknown_secret_key" "1"
              else ret tt) ;;;
             if (1 <? length (admin.Keys user))%nat
                || ((length (admin.Keys user) =? 1)%nat && negb found)
             then ret (set_ExclusiveS3Credentials (BoolValue false) data)
             else ret data
           else
             SetKey "mark_unknown_access_key" "0" ;;;
             SetKey "mark_unknown_secret_key" "0" ;;;
             ret (set_SecretKey StringNull (set_AccessKey StringNull data))) ;;
        StateSet data
  end.

(** Update's pass over the keys of the modified user. *)
Fixpoint Update_keys (user : admin.User) (keys : list admin.UserKeySpec)
  (data : UserResourceModel) : Op UserResourceModel :=
  match keys with
  | [] => ret data
  | k :: rest =>
      data <-
        (if negb (IsNull (AccessKey data)) && IsUnknown (SecretKey data)
            && String.eqb (admin.AccessKey k) (ValueString (AccessKey data))
         then
           let data := set_SecretKey (StringValue (admin.SecretKey k)) data in
           SetKey "mark_unknown_secret_key" "0" ;;; ret data
         else if ValueBool (ExclusiveS3Credentials data)
                 || IsNull (ExclusiveS3Credentials data)
         then
           let k := admin.with_UID (admin.ID user) k in
           e <- remote (CallRemoveKey k) (Admin_RemoveKey client k) ;;
           match e with
           | Some err =>
               AddError
                 ("could not remove access key '" +:+ admin.AccessKey k +:+ "'")
                 (Error err) ;;;
               ret data
           | None => ret data
           end
         else ret data) ;;
      Update_keys user rest data
  end.

(** [n] random bytes of [accessKeyBytes]. *)
Fixpoint randomAccessKey (n : nat) : Op string :=
  match n with
  | 0 => ret ""
  | S n' =>
      i <- Intn client (String.length accessKeyBytes) ;;
      match String.get i accessKeyBytes with
      | Some c => a <- randomAccessKey n' ;; ret (String c a)
      | None => panic "index out of range"
      end
  end.

(** Update's key-creation call for the access key the record holds, and
    its scan of the response for the pair with that access key. *)
Definition Update_create_key (user : admin.User) (data : UserResourceModel)
  : Op UserResourceModel :=
  let spec :=
    CreateKey_request (admin.ID user) (ValueString (AccessKey data)) in
  r <- remote (CallCreateKey spec) (Admin_CreateKey client spec) ;;
  match r with
  | Err err =>
      AddError "could not generate s3 credentials" (Error err) ;;;
      return_
  | Ok keys =>
      let data :=
        match keys with
        | Some l =>
            match
              find (fun k =>
                      String.eqb (admin.AccessKey k)
                        (ValueString (AccessKey data))) l
            with
            | Some k => set_SecretKey (StringValue (admin.SecretKey k)) data
            | None => data
            end
        | None => data
        end in
      (if IsUnknown (SecretKey data) then
         match keys with
         | Some l =>
             AddError
               "could not find expected s3 credentials in api response"
               ("got " +:+ fmt.d (length l)
                +:+ " s3 key pairs back from api, none of the matched the access key '"
                +:+ ValueString (AccessKey data) +:+ "'")
         | None => panic "nil pointer dereference"
         end
       else
         SetKey "mark_unknown_access_key" "0" ;;;
         SetKey "mark_unknown_secret_key" "0") ;;;
      ret data
  end.

(** Update's key generation, run while the secret key is still unknown
    after the pass over the remote keys: an unknown access key is first
    replaced by twenty random bytes of [accessKeyBytes]. *)
Definition Update_generate (user : admin.User) (data : UserResourceModel)
  : Op UserResourceModel :=
  if IsUnknown (SecretKey data) then
    data <-
      (if IsUnknown (AccessKey data) then
         a <- randomAccessKey 20 ;;
         ret (set_AccessKey (StringValue a) data)
       else ret data) ;;
    Update_create_key user data
  else ret data.

Definition Update (data : UserResourceModel) : Op unit :=
  let update := Update_request data in
  r <- remote (CallModifyUser update) (Admin_ModifyUser client update) ;;
  match r with
  | Err err => AddError "could not modify user" (Error err) ;;; return_
  | Ok user =>
      data <-
        (if IsUnknown (SecretKey data) then
           data <- Update_keys user (admin.Keys user) data ;;
           Update_generate user data
         else ret data) ;;
      StateSet data
  end.

Definition Delete (data : UserResourceModel) : Op unit :=
  let reqUser := Delete_request data in
  e <- remote (CallRemoveUser reqUser) (Admin_RemoveUser client reqUser) ;;
  match e with
  | Some err =>
      if negb (Is err admin.ErrNoSuchUser) then
        AddError "could not delete user" (Error err) ;;; return_
      else ret tt
  | None => ret tt
  end.

End Operations.

End UserResource.

(** ** The bucket resource *)

Record BucketResourceModel := {
  bucket_Id : Value string;
  bucket_Name : Value string
}.

Module BucketResource.

Section Operations.

Context {W : Type} (client : RgwClient W).

#[local] Abbreviation Op := (Op W BucketResourceModel).

Definition Read (data : BucketResourceModel) : Op unit :=
  let bucket := ValueString (bucket_Id data) in
  e <- remote (CallHeadBucket bucket) (S3_HeadBucket client bucket) ;;
  match e with
  | Some err =>
      match As err with
      | Some code =>
          if String.eqb code "404" then RemoveResource ;;; return_
          else if String.eqb code "403" then
            AddError "no permission to head bucket" (Error err) ;;; return_
          else AddError "could not head bucket" (Error err) ;;; return_
      | None => AddError "could not head bucket" (Error err) ;;; return_
      end
  | None =>
      StateSet {| bucket_Id := bucket_Id data;
                  bucket_Name := StringValue bucket |}
  end.

Definition Delete (data : BucketResourceModel) : Op unit :=
  let bucket := ValueString (bucket_Id data) in
  e <- remote (CallDeleteBucket bucket) (S3_DeleteBucket client bucket) ;;
  match e with
  | Some err => AddError "could not delete bucket" (Error err) ;;; return_
  | None => ret tt
  end.

Definition Create (data : BucketResourceModel) : Op unit :=
  let bucket := ValueString (bucket_Name data) in
  e <- remote (CallCreateBucket bucket) (S3_CreateBucket client bucket) ;;
  match e with
  | Some err => AddError "could not create bucket" (Error err) ;;; return_
  | None =>
      StateSet {| bucket_Id := StringValue bucket;
                  bucket_Name := bucket_Name data |}
  end.

(** There is nothing to update in place: the plan is saved as it is. *)
Definition Update (data : BucketResourceModel) : Op unit :=
  StateSet data.

End Operations.

End BucketResource.

(** ** Statement vocabulary and concrete environments *)

(** The trace, response and outcome of a finished run. *)
Definition trace {W M} (r : Outcome unit * Machine W M) : list Call :=
  calls (snd r).
Definition response {W M} (r : Outcome unit * Machine W M) : Response M :=
  resp (snd r).
Definition outcome {W M} (r : Outcome unit * Machine W M) : Outcome unit :=
  fst r.

(** Whether a remote key carries the access key [ak]. *)
Definition has_access_key (ak : string) (k : admin.UserKeySpec) : bool :=
  String.eqb (admin.AccessKey k) ak.

(** The diagnostic Update records for a failed removal of key [k]. *)
Definition removal_failure (k : admin.UserKeySpec) (err : error)
  : diag.Diagnostic :=
  {| diag.severity := diag.SeverityError; diag.attribute := None;
     diag.summary :=
       "could not remove access key '" +:+ admin.AccessKey k +:+ "'";
     diag.detail := Error err |}.

(** The diagnostics Create records for a response with [n] key pairs. *)
Definition key_count_errors (n : nat) : diag.Diagnostics :=
  [ {| diag.severity := diag.SeverityError;
       diag.attribute := Some "access_key";
       diag.summary := "api didn't return exactly one s3 key pair";
       diag.detail :=
         "expected one s3 api key pair in api response, got " +:+ fmt.d n |};
    {| diag.severity := diag.SeverityError;
       diag.attribute := Some "secret_key";
       diag.summary := "api didn't return exactly one s3 key pair";
       diag.detail :=
         "expected one s3 api key pair in api response, got " +:+ fmt.d n |} ].

(** The caps a request would carry if it repeated the declared list
    element for element. *)
Definition declared_caps (caps : list UserCapModel) : list admin.UserCapSpec :=
  map (fun c => {| admin.Type_ := ValueString (Type_ c);
                   admin.Perm := ValueString (Perm c) |}) caps.

(** The round trip of the specification's identity property: the pair
    Read recovers from the id Create forms. *)
Definition identity_of (data : UserResourceModel)
  : Value string * Value string :=
  (Tenant data, Username data).

(** A stateless client whose answers are fixed in advance. *)
Definition fixed_client
  (user : result admin.User)
  (removeUser : option error)
  (createKey : result (option (list admin.UserKeySpec)))
  (removeKey : admin.UserKeySpec -> option error)
  (bucket : option error) : RgwClient unit :=
  {| Admin_CreateUser := fun _ w => (user, w);
     Admin_GetUser := fun _ w => (user, w);
     Admin_ModifyUser := fun _ w => (user, w);
     Admin_RemoveUser := fun _ w => (removeUser, w);
     Admin_CreateKey := fun _ w => (createKey, w);
     Admin_RemoveKey := fun k w => (removeKey k, w);
     S3_CreateBucket := fun _ w => (bucket, w);
     S3_HeadBucket := fun _ w => (bucket, w);
     S3_DeleteBucket := fun _ w => (bucket, w);
     rand_Intn := fun _ w => (0, w) |}.

Definition key (ak sk : string) : admin.UserKeySpec :=
  {| admin.UID := ""; admin.AccessKey := ak; admin.SecretKey := sk;
     admin.key_KeyType := "s3"; admin.key_GenerateKey := None |}.

(** The remote user ["alice"] holding the given keys. *)
Definition remote_alice (keys : list admin.UserKeySpec) : admin.User :=
  {| admin.ID := "alice"; admin.DisplayName := "Alice"; admin.Email := "";
     admin.Suspended := Some 0%Z; admin.MaxBuckets := Some 1000%Z;
     admin.Keys := keys; admin.Caps := []; admin.OpMask := "read, write, delete";
     admin.KeyType := ""; admin.GenerateKey := None; admin.PurgeData := None |}.

(** The record of user ["alice"] with the given credential fields. *)
Definition alice (generate exclusive : Value bool) (ak sk : Value string)
  : UserResourceModel :=
  {| Id := Known "alice"; Username := Known "alice";
     DisplayName := Known "Alice"; Email := Null;
     GenerateS3Credentials := generate; ExclusiveS3Credentials := exclusive;
     Caps := []; OpMask := Known "read, write, delete";
     MaxBuckets := Known 1000%Z; Suspended := Known false; Tenant := Null;
     AccessKey := ak; SecretKey := sk; PurgeDataOnDelete := Null |}.

Definition not_found : error := StatusError admin.ErrNoSuchUser "NoSuchUser".
Definition access_denied : error :=
  StatusError admin.ErrAccessDenied "AccessDenied".
(** The S3 client's answers to HeadBucket for a missing and for a forbidden
    bucket: API errors whose codes are ["NotFound"] and ["Forbidden"]. *)
Definition bucket_not_found : error := APIError "NotFound" "Not Found".
Definition bucket_forbidden : error := APIError "Forbidden" "Forbidden".

(** Transporting a change of the record through a run: on the value an
    operation step yields, and on the record an operation saved. *)
Definition outcome_map {A B} (f : A -> B) (o : Outcome A) : Outcome B :=
  match o with
  | Val a => Val (f a)
  | Return => Return
  | Panic msg => Panic msg
  end.

Definition saved_map {M} (f : M -> M) (e : StateEffect M) : StateEffect M :=
  match e with
  | Saved data => Saved (f data)
  | Untouched => Untouched
  | Removed => Removed
  end.

Definition machine_map {W M} (f : M -> M) (m : Machine W M) : Machine W M :=
  {| world := world m; calls := calls m;
     resp := {| State := saved_map f (State (resp m));
                Private := Private (resp m);
                Diagnostics := Diagnostics (resp m) |} |}.

(** ** The plan modifier driven by private state *)

Record stringPrivateUnknownModifier := { Suffix : string }.

(** [stringPrivateUnknownModifier.PlanModifyString]: the planned value
    becomes unknown when the private key [mark_unknown_<suffix>] holds
    ["1"]; [private] is the private state the request carries. *)
Definition PlanModifyString_private (m : stringPrivateUnknownModifier)
  (private : gmap string string)
  (req : planmodifier.Request string) (resp : planmodifier.Response string)
  : planmodifier.Response string :=
  match private !! ("mark_unknown_" +:+ Suffix m) with
  | Some data =>
      if String.eqb data "1" then setPlanValue StringUnknown resp else resp
  | None => resp
  end.

(** The modifiers the user schema attaches to [access_key] and
    [secret_key], and the planned value each one leaves. *)
Definition access_key_modifier : stringPrivateUnknownModifier :=
  {| Suffix := "access_key" |}.
Definition secret_key_modifier : stringPrivateUnknownModifier :=
  {| Suffix := "secret_key" |}.

Definition plan_access_key (private : gmap string string)
  (req : planmodifier.Request string) : Value string :=
  RespPlanValue (PlanModifyString_private access_key_modifier private req
                   (initial req)).
Definition plan_secret_key (private : gmap string string)
  (req : planmodifier.Request string) : Value string :=
  RespPlanValue (PlanModifyString_private secret_key_modifier private req
                   (initial req)).

(** ** The bucket policy resource *)

Record BucketPolicyResourceModel := {
  policy_Id : Value string;
  policy_Bucket : Value string;
  policy_Policy : Value string
}.

(** The bucket-policy calls of the S3 client.  [GetBucketPolicy] answers
    with an output whose [Policy] is a string pointer, which may be nil.
    These calls are observed through the environment they step. *)
Record S3PolicyClient (W : Type) := {
  S3_PutBucketPolicy : string -> string -> W -> option error * W;
  S3_GetBucketPolicy : string -> W -> result (option string) * W;
  S3_DeleteBucketPolicy : string -> W -> option error * W
}.
Arguments S3_PutBucketPolicy {W} _ _ _ _.
Arguments S3_GetBucketPolicy {W} _ _ _.
Arguments S3_DeleteBucketPolicy {W} _ _ _.

(** A call of the S3 policy API: step the environment. *)
Definition s3call {W M A} (f : W -> A * W) : Op W M A :=
  fun m =>
    let '(a, w') := f (world m) in
    (Val a, {| world := w'; calls := calls m; resp := resp m |}).

Module BucketPolicyResource.

Section Operations.

Context {W : Type} (client : S3PolicyClient W).

#[local] Abbreviation Op := (Op W BucketPolicyResourceModel).

Definition Create (data : BucketPolicyResourceModel) : Op unit :=
  let bucket := ValueString (policy_Bucket data) in
  let policy := ValueString (policy_Policy data) in
  e <- s3call (S3_PutBucketPolicy client bucket policy) ;;
  match e with
  | Some err =>
      AddError "could not create bucket policy" (Error err) ;;; return_
  | None =>
      StateSet {| policy_Id := StringValue bucket;
                  policy_Bucket := policy_Bucket data;
                  policy_Policy := policy_Policy data |}
  end.

Definition Read (data : BucketPolicyResourceModel) : Op unit :=
  let bucket := ValueString (policy_Bucket data) in
  r <- s3call (S3_GetBucketPolicy client bucket) ;;
  match r with
  | Err err =>
      match As err with
      | Some code =>
          if String.eqb code "403" then
            AddError "acces denied"
              "If you are using an identity other than the root user of the Amazon Web Services account that owns the bucket, the calling identity must have the GetBucketPolicy permissions on the specified bucket and belong to the bucket owner's account in order to use this operation" ;;;
            return_
          else if String.eqb code "405" then
            AddError "wrong identity"
              "If you have the correct permissions, but you're not using an identity that belongs to the bucket owner's account, Amazon S3 returns a 405 Method Not Allowed error." ;;;
            return_
          else
            AddError "could not get bucket policy" (Error err) ;;; return_
      | None =>
          AddError "could not get bucket policy" (Error err) ;;; return_
      end
  | Ok res =>
      match res with
      | Some policy =>
          StateSet {| policy_Id := policy_Id data;
                      policy_Bucket := policy_Bucket data;
                      policy_Policy := StringValue policy |}
      | None => panic "nil pointer dereference"
      end
  end.

Definition Update (data : BucketPolicyResourceModel) : Op unit :=
  let bucket := ValueString (policy_Bucket data) in
  let policy := ValueString (policy_Policy data) in
  e <- s3call (S3_PutBucketPolicy client bucket policy) ;;
  match e with
  | Some err =>
      AddError "could not modify bucket policy" (Error err) ;;; return_
  | None => StateSet data
  end.

Definition Delete (data : BucketPolicyResourceModel) : Op unit :=
  let bucket := ValueString (policy_Bucket data) in
  e <- s3call (S3_DeleteBucketPolicy client bucket) ;;
  match e with
  | Some err =>
      AddError "could not delete bucket policy" (Error err) ;;; return_
  | None => ret tt
  end.

End Operations.

End BucketPolicyResource.

(** ** Further statement vocabulary *)

(** The record [dst] with the three credential fields Read's credential
    step may write taken from [src]. *)
Definition with_credentials_of (src dst : UserResourceModel)
  : UserResourceModel :=
  set_ExclusiveS3Credentials (ExclusiveS3Credentials src)
    (set_SecretKey (SecretKey src) (set_AccessKey (AccessKey src) dst)).

(** The record Read holds after merging the remote identity and
    attributes, before its credential step. *)
Definition Read_merged (user : admin.User) (data : UserResourceModel)
  : UserResourceModel :=
  UserResource.Read_attributes user
    (UserResource.splitIdentity (admin.ID user) data).

(** The remote keys without the first one that carries access key [ak]. *)
Fixpoint without_first (ak : string) (keys : list admin.UserKeySpec)
  : list admin.UserKeySpec :=
  match keys with
  | [] => []
  | k :: rest =>
      if has_access_key ak k then rest else k :: without_first ak rest
  end.

Definition is_remove_key (c : Call) : bool :=
  match c with CallRemoveKey _ => true | _ => false end.

Definition is_create_key (c : Call) : bool :=
  match c with CallCreateKey _ => true | _ => false end.

(** Whether every byte of [s] is one of [accessKeyBytes]. *)
Fixpoint over_alphabet (s : string) : bool :=
  match s with
  | EmptyString => true
  | String c s' => strings.Contains accessKeyBytes c && over_alphabet s'
  end.

(** A stateless policy client whose answers are fixed in advance. *)
Definition fixed_policy_client (put : option error)
  (get : result (option string)) (del : option error)
  : S3PolicyClient unit :=
  {| S3_PutBucketPolicy := fun _ _ w => (put, w);
     S3_GetBucketPolicy := fun _ w => (get, w);
     S3_DeleteBucketPolicy := fun _ w => (del, w) |}.

(** A policy store: the environment is the policy the bucket holds, put
    and get act on it. *)
Definition policy_store : S3PolicyClient (option string) :=
  {| S3_PutBucketPolicy := fun _ policy _ => (None, Some policy);
     S3_GetBucketPolicy := fun _ w =>
       match w with
       | Some policy => (Ok (Some policy), w)
       | None => (Err (APIError "NoSuchBucketPolicy" "no policy"), w)
       end;
     S3_DeleteBucketPolicy := fun _ _ => (None, None) |}.

(** ** Tactics for evaluating operations *)

(** Unfold the monad's plumbing down to the next remote call. *)
Ltac op_step :=
  cbv beta iota zeta delta
    [run bind ret return_ panic modify_resp AddError AddAttributeError SetKey
     StateSet RemoveResource remote s3call Intn outcome trace response];
  cbn [fst snd world calls resp State Private Diagnostics].

(** Close the goal by an induction hypothesis, at the machine the other
    run reached. *)
Ltac at_machine IH data H :=
  match goal with
  | |- context [UserResource.Update_keys _ _ _ data ?m] => exact (IH data m H)
  end.

(** One step of a case analysis that follows the run. *)
Ltac run_case :=
  op_step;
  cbn [machine_map outcome_map saved_map set_ExclusiveS3Credentials
       set_AccessKey set_SecretKey AccessKey SecretKey ExclusiveS3Credentials
       StringValue];
  match goal with
  | |- context [Admin_CreateKey ?c ?k ?w] =>
      destruct (Admin_CreateKey c k w) as [[? | ?] ?]
  | |- context [find ?f ?l] => destruct (find f l) as [? |]
  | |- context [match ?x with Some _ => _ | None => _ end] =>
      destruct x as [? |]
  | |- context [if ?b then _ else _] => destruct b
  end.

(** Prove that Read's merge leaves a field of the record alone. *)
Ltac merged_field :=
  unfold UserResource.Read_attributes, UserResource.splitIdentity;
  repeat match goal with
         | |- context [match ?x with _ => _ end] => destruct x
         end; reflexivity.

(** * Properties *)

(** ** Default-value resolution *)

Lemma PlanModifyString_initial (m : stringDefaultModifier) (req : Request string) :
  RespPlanValue (PlanModifyString m req (initial req)) =
  if sets_default (ConfigValue req) (PlanValue req)
  then Known (string_Default m) else PlanValue req.
Proof.
  unfold PlanModifyString, sets_default.
  destruct req as [config plan state]; destruct config, plan; reflexivity.
Qed.

Lemma PlanModifyInt64_initial (m : int64DefaultModifier) (req : Request Z) :
  RespPlanValue (PlanModifyInt64 m req (initial req)) =
  if sets_default (ConfigValue req) (PlanValue req)
  then Known (int64_Default m) else PlanValue req.
Proof.
  unfold PlanModifyInt64, sets_default.
  destruct req as [config plan state]; destruct config, plan; reflexivity.
Qed.

Lemma PlanModifyBool_initial (m : boolDefaultModifier) (req : Request bool) :
  RespPlanValue (PlanModifyBool m req (initial req)) =
  if sets_default (ConfigValue req) (PlanValue req)
  then Known (bool_Default m) else PlanValue req.
Proof.
  unfold PlanModifyBool, sets_default.
  destruct req as [config plan state]; destruct config, plan; reflexivity.
Qed.

(** A plan that carries a declared non-null value never has the default
    assigned. *)
Lemma sets_default_declared {A} (config plan : Value A) :
  IsNull config = false -> plan = config -> sets_default config plan = false.
Proof. intros Hc ->. unfold sets_default. rewrite Hc. reflexivity. Qed.

(** C4, as the specification words it, fails when the planned value is
    null: with a null declared value and a null planned value the modifier
    assigns the default, where the stated rule (default only for an unknown
    plan, otherwise untouched) would leave the plan null. *)
Lemma default_on_null_plan_counterexample :
  let req := {| ConfigValue := Null; PlanValue := Null; StateValue := Null |} in
  IsUnknown (PlanValue req) && IsNull (ConfigValue req) = false
  /\ spec_resolve "read, write, delete" (ConfigValue req) (PlanValue req) = Null
  /\ plan_op_mask req = Known "read, write, delete"
  /\ plan_op_mask req <> PlanValue req.
Proof. cbv. repeat split. discriminate. Qed.

(** C4 (amended): for [op_mask] (default "read, write, delete"),
    [max_buckets] (default 1000) and [suspended] (default false), the
    modifier keeps a declared non-null value that the plan carries; it
    assigns the default exactly when the planned value is null, or the
    planned value is unknown and the declared value is null; in every other
    case the planned value is left untouched. *)
Theorem default_resolution
  (reqS : Request string) (reqI : Request Z) (reqB : Request bool) :
  ((IsNull (ConfigValue reqS) = false -> PlanValue reqS = ConfigValue reqS ->
    plan_op_mask reqS = ConfigValue reqS)
   /\ (sets_default (ConfigValue reqS) (PlanValue reqS) = true ->
       plan_op_mask reqS = Known "read, write, delete")
   /\ (sets_default (ConfigValue reqS) (PlanValue reqS) = false ->
       plan_op_mask reqS = PlanValue reqS))
  /\ ((IsNull (ConfigValue reqI) = false -> PlanValue reqI = ConfigValue reqI ->
       plan_max_buckets reqI = ConfigValue reqI)
      /\ (sets_default (ConfigValue reqI) (PlanValue reqI) = true ->
          plan_max_buckets reqI = Known 1000%Z)
      /\ (sets_default (ConfigValue reqI) (PlanValue reqI) = false ->
          plan_max_buckets reqI = PlanValue reqI))
  /\ ((IsNull (ConfigValue reqB) = false -> PlanValue reqB = ConfigValue reqB ->
       plan_suspended reqB = ConfigValue reqB)
      /\ (sets_default (ConfigValue reqB) (PlanValue reqB) = true ->
          plan_suspended reqB = Known false)
      /\ (sets_default (ConfigValue reqB) (PlanValue reqB) = false ->
          plan_suspended reqB = PlanValue reqB)).
Proof.
  unfold plan_op_mask, plan_max_buckets, plan_suspended.
  rewrite PlanModifyString_initial, PlanModifyInt64_initial,
    PlanModifyBool_initial.
  repeat split.
  all: try (intros Hc Hp; rewrite (sets_default_declared _ _ Hc Hp); exact Hp).
  all: intros ->; reflexivity.
Qed.

Lemma default_resolution_witness :
  plan_op_mask {| ConfigValue := Known "read"; PlanValue := Known "read";
                  StateValue := Null |} = Known "read"
  /\ plan_max_buckets {| ConfigValue := Null; PlanValue := Unknown;
                         StateValue := Null |} = Known 1000%Z
  /\ plan_suspended {| ConfigValue := Null; PlanValue := Known true;
                       StateValue := Known true |} = Known true.
Proof.
  pose proof
    (default_resolution
       {| ConfigValue := Known "read"; PlanValue := Known "read";
          StateValue := Null |}
       {| ConfigValue := Null; PlanValue := Unknown; StateValue := Null |}
       {| ConfigValue := Null; PlanValue := Known true;
          StateValue := Known true |})
    as [[HS _] [[_ [HI _]] [_ [_ HB]]]].
  split; [ apply HS; reflexivity | ].
  split; [ apply HI; reflexivity | apply HB; reflexivity ].
Defined.

(** ** Identity decomposition *)

Section Identity.

Local Open Scope char_scope.

Lemma Cut_absent (s : string) (sep : ascii) :
  strings.Contains s sep = false -> strings.Cut s sep = None.
Proof.
  induction s as [| a s IH]; simpl; [ reflexivity | ].
  intros H. apply orb_false_iff in H as [Ha Hs].
  rewrite Ha, (IH Hs). reflexivity.
Qed.

Lemma Cut_first (before after : string) (sep : ascii) :
  strings.Contains before sep = false ->
  strings.Cut (before +:+ String sep after) sep = Some (before, after).
Proof.
  induction before as [| a s IH]; simpl.
  - intros _. rewrite Ascii.eqb_refl. reflexivity.
  - intros H. apply orb_false_iff in H as [Ha Hs].
    rewrite Ha, (IH Hs). reflexivity.
Qed.

Lemma SplitN_bare (s : string) :
  strings.Contains s "$" = false -> strings.SplitN s "$" 2 = [s].
Proof. intros H. simpl. rewrite (Cut_absent _ _ H). reflexivity. Qed.

Lemma SplitN_qualified (tenant username : string) :
  strings.Contains tenant "$" = false ->
  strings.SplitN (tenant +:+ "$" +:+ username) "$" 2 = [tenant; username].
Proof.
  intros H. simpl. change ("$" +:+ username)%string with (String "$" username).
  rewrite (Cut_first _ _ _ H). reflexivity.
Qed.

End Identity.

(** Splitting on the first ['$'] inverts the concatenation whenever the
    tenant is free of ['$'], whatever the username. *)
Lemma splitIdentity_qualified (tenant username : string)
  (observed : UserResourceModel) :
  strings.Contains tenant "$" = false ->
  identity_of (UserResource.splitIdentity (tenant +:+ "$" +:+ username) observed)
  = (Known tenant, Known username).
Proof.
  intros H. unfold UserResource.splitIdentity.
  rewrite (SplitN_qualified _ _ H). reflexivity.
Qed.

Lemma splitIdentity_bare (username : string) (observed : UserResourceModel) :
  strings.Contains username "$" = false ->
  identity_of (UserResource.splitIdentity username observed)
  = (Null, Known username).
Proof.
  intros H. unfold UserResource.splitIdentity.
  rewrite (SplitN_bare _ H). reflexivity.
Qed.

(** C3, as stated, fails for a tenant that itself contains ['$']: the
    username ["c"] has no ['$'], yet the id ["a$b$c"] formed for tenant
    ["a$b"] is split into tenant ["a"] and username ["b$c"]. *)
Lemma identity_tenant_with_dollar_counterexample :
  let data :=
    set_Tenant (Known "a$b") (set_Username (Known "c")
      (alice Null Null Null Null)) in
  strings.Contains "c" "$" = false
  /\ UserResource.rgwUserID data = "a$b$c"
  /\ identity_of (UserResource.splitIdentity (UserResource.rgwUserID data) data)
     = (Known "a", Known "b$c")
  /\ identity_of (UserResource.splitIdentity (UserResource.rgwUserID data) data)
     <> identity_of data.
Proof. cbv. repeat split. discriminate. Qed.

(** C3 (amended): for every tenant/username pair where neither the tenant
    nor the username contains ['$'], the id Create forms is
    [tenant + "$" + username] and Read's split on the first ['$'] yields
    (tenant, username) again; for an absent tenant the id is the bare
    username and the split yields (absent, username). *)
Theorem identity_round_trip
  (data observed : UserResourceModel) (username : string) :
  Username data = Known username ->
  strings.Contains username "$" = false ->
  (forall tenant, Tenant data = Known tenant ->
     strings.Contains tenant "$" = false ->
     UserResource.rgwUserID data = tenant +:+ "$" +:+ username
     /\ identity_of
          (UserResource.splitIdentity (UserResource.rgwUserID data) observed)
        = (Known tenant, Known username))
  /\ (Tenant data = Null ->
      UserResource.rgwUserID data = username
      /\ identity_of
           (UserResource.splitIdentity (UserResource.rgwUserID data) observed)
         = (Null, Known username)).
Proof.
  intros Hu Hfree. unfold UserResource.rgwUserID. rewrite Hu. split.
  - intros tenant Ht Htfree. rewrite Ht. simpl IsNull. cbv iota.
    split; [ reflexivity | ].
    apply (splitIdentity_qualified tenant username observed Htfree).
  - intros Ht. rewrite Ht. simpl IsNull. cbv iota.
    split; [ reflexivity | ].
    apply (splitIdentity_bare username observed Hfree).
Qed.

Lemma identity_round_trip_witness :
  (UserResource.rgwUserID
     (set_Tenant (Known "acme") (alice Null Null Null Null)) = "acme$alice"
   /\ identity_of
        (UserResource.splitIdentity
           (UserResource.rgwUserID
              (set_Tenant (Known "acme") (alice Null Null Null Null)))
           (alice Null Null Null Null))
      = (Known "acme", Known "alice"))
  /\ (UserResource.rgwUserID (alice Null Null Null Null) = "alice"
      /\ identity_of
           (UserResource.splitIdentity
              (UserResource.rgwUserID (alice Null Null Null Null))
              (alice Null Null Null Null))
         = (Null, Known "alice")).
Proof.
  split.
  - apply (proj1 (identity_round_trip
                    (set_Tenant (Known "acme") (alice Null Null Null Null))
                    (alice Null Null Null Null) "alice"
                    eq_refl eq_refl) "acme" eq_refl eq_refl).
  - apply (proj2 (identity_round_trip
                    (alice Null Null Null Null)
                    (alice Null Null Null Null) "alice"
                    eq_refl eq_refl) eq_refl).
Defined.

(** ** Create *)

Lemma Append1_nil (d : diag.Diagnostic) : diag.Append1 d [] = [d].
Proof.
  unfold diag.Append1.
  rewrite bool_decide_eq_false_2 by (apply not_elem_of_nil). reflexivity.
Qed.

Lemma Append1_fresh (d : diag.Diagnostic) (diags : diag.Diagnostics) :
  d ∉ diags -> diag.Append1 d diags = diags ++ [d].
Proof.
  intros H. unfold diag.Append1. rewrite bool_decide_eq_false_2 by exact H.
  reflexivity.
Qed.

(** [Append1] only ever extends the diagnostics. *)
Lemma Append1_keeps (d d' : diag.Diagnostic) (diags : diag.Diagnostics) :
  d ∈ diags -> d ∈ diag.Append1 d' diags.
Proof.
  intros H. unfold diag.Append1. destruct (bool_decide (d' ∈ diags)).
  - exact H.
  - apply elem_of_app. left. exact H.
Qed.

Lemma Append1_records (d : diag.Diagnostic) (diags : diag.Diagnostics) :
  d ∈ diag.Append1 d diags.
Proof.
  unfold diag.Append1. destruct (bool_decide (d ∈ diags)) eqn:E.
  - apply bool_decide_eq_true_1 in E. exact E.
  - apply elem_of_app. right. apply list_elem_of_singleton. reflexivity.
Qed.

(** Two diagnostics on distinct attributes are both kept. *)
Lemma key_count_errors_recorded (n : nat) :
  diag.AddAttributeError "secret_key"
    "api didn't return exactly one s3 key pair"
    ("expected one s3 api key pair in api response, got " +:+ fmt.d n)
    (diag.AddAttributeError "access_key"
       "api didn't return exactly one s3 key pair"
       ("expected one s3 api key pair in api response, got " +:+ fmt.d n) [])
  = key_count_errors n.
Proof.
  unfold diag.AddAttributeError. rewrite Append1_nil.
  rewrite Append1_fresh; [ reflexivity | ].
  intros Hin. apply list_elem_of_singleton in Hin. discriminate Hin.
Qed.

(** C2: on Create with key generation requested, a creation response with
    exactly one key pair gives the saved record that pair's access and
    secret key and no diagnostic; a response with zero or several pairs
    makes Create report two errors, on [access_key] and on [secret_key],
    whose detail ends in the decimal count of the pairs received. *)
Theorem Create_key_count {W} (client : RgwClient W) (data : UserResourceModel)
  (private : gmap string string) (w w' : W) (createdUser : admin.User) :
  ValueBool (GenerateS3Credentials data)
  || IsNull (GenerateS3Credentials data) = true ->
  Admin_CreateUser client (UserResource.Create_request data) w
  = (Ok createdUser, w') ->
  let r := run (UserResource.Create client data) private w in
  outcome r = Val tt
  /\ trace r = [CallCreateUser (UserResource.Create_request data)]
  /\ (forall k, admin.Keys createdUser = [k] ->
      (exists saved,
         State (response r) = Saved saved
         /\ AccessKey saved = Known (admin.AccessKey k)
         /\ SecretKey saved = Known (admin.SecretKey k)
         /\ saved
            = set_SecretKey (Known (admin.SecretKey k))
                (set_AccessKey (Known (admin.AccessKey k))
                   (set_Id (Known (admin.ID createdUser)) data)))
      /\ Diagnostics (response r) = [])
  /\ (length (admin.Keys createdUser) <> 1 ->
      Diagnostics (response r)
      = [ {| diag.severity := diag.SeverityError;
             diag.attribute := Some "access_key";
             diag.summary := "api didn't return exactly one s3 key pair";
             diag.detail :=
               "expected one s3 api key pair in api response, got "
               +:+ NilEmpty.string_of_uint
                     (Nat.to_uint (length (admin.Keys createdUser))) |};
          {| diag.severity := diag.SeverityError;
             diag.attribute := Some "secret_key";
             diag.summary := "api didn't return exactly one s3 key pair";
             diag.detail :=
               "expected one s3 api key pair in api response, got "
               +:+ NilEmpty.string_of_uint
                     (Nat.to_uint (length (admin.Keys createdUser))) |} ]
      /\ diag.HasError (Diagnostics (response r)) = true).
Proof.
  intros Hgen Hcall r. subst r.
  unfold UserResource.Create. op_step. rewrite Hcall, Hgen.
  destruct (admin.Keys createdUser) as [| k0 [| k1 rest]] eqn:Hkeys; op_step.
  all: split; [ reflexivity | split; [ reflexivity | split ] ].
  - intros k Hk. discriminate Hk.
  - intros _. rewrite key_count_errors_recorded. split; reflexivity.
  - intros k Hk. injection Hk as <-.
    split; [ eexists; repeat split | reflexivity ].
  - intros Hlen. contradiction Hlen. reflexivity.
  - intros k Hk. discriminate Hk.
  - intros _. rewrite key_count_errors_recorded. split; reflexivity.
Qed.

Lemma Create_key_count_witness :
  let client keys :=
    fixed_client (Ok (remote_alice keys)) None (Ok None) (fun _ => None) None in
  let plan := alice (Known true) Null Unknown Unknown in
  let count_errors digits :=
    [ {| diag.severity := diag.SeverityError;
         diag.attribute := Some "access_key";
         diag.summary := "api didn't return exactly one s3 key pair";
         diag.detail :=
           "expected one s3 api key pair in api response, got " +:+ digits |};
      {| diag.severity := diag.SeverityError;
         diag.attribute := Some "secret_key";
         diag.summary := "api didn't return exactly one s3 key pair";
         diag.detail :=
           "expected one s3 api key pair in api response, got " +:+ digits |} ] in
  (let r := run (UserResource.Create (client [key "AK1" "SK1"]) plan) ∅ tt in
   (exists saved,
      State (response r) = Saved saved
      /\ AccessKey saved = Known "AK1" /\ SecretKey saved = Known "SK1"
      /\ saved = alice (Known true) Null (Known "AK1") (Known "SK1"))
   /\ Diagnostics (response r) = [])
  /\ (let r := run (UserResource.Create (client []) plan) ∅ tt in
      Diagnostics (response r) = count_errors "0"
      /\ diag.HasError (Diagnostics (response r)) = true)
  /\ (let r :=
        run (UserResource.Create
               (client [key "AK1" "SK1"; key "AK2" "SK2"]) plan) ∅ tt in
      Diagnostics (response r) = count_errors "2"
      /\ diag.HasError (Diagnostics (response r)) = true).
Proof.
  intros client plan count_errors. split; [ | split ].
  - destruct (Create_key_count (client [key "AK1" "SK1"]) plan
                ∅ tt tt (remote_alice [key "AK1" "SK1"]) eq_refl eq_refl)
      as (_ & _ & Hone & _).
    exact (Hone (key "AK1" "SK1") eq_refl).
  - destruct (Create_key_count (client []) plan
                ∅ tt tt (remote_alice []) eq_refl eq_refl)
      as (_ & _ & _ & Hcount).
    exact (Hcount ltac:(discriminate)).
  - destruct (Create_key_count (client [key "AK1" "SK1"; key "AK2" "SK2"]) plan
                ∅ tt tt (remote_alice [key "AK1" "SK1"; key "AK2" "SK2"])
                eq_refl eq_refl)
      as (_ & _ & _ & Hcount).
    exact (Hcount ltac:(discriminate)).
Defined.

(** ** Read and Delete on a missing or forbidden entity *)

Lemma HasError_AddError (sum det : string) (diags : diag.Diagnostics) :
  diag.HasError (diag.AddError sum det diags) = true.
Proof.
  unfold diag.HasError, diag.AddError. apply existsb_exists.
  eexists. split.
  - apply list_elem_of_In. apply Append1_records.
  - reflexivity.
Qed.

(** C6: Read of a bucket that is missing remotely does not remove the
    record.  The S3 client reports a missing bucket as an API error with
    code ["NotFound"]; Read compares the code with ["404"], so it takes the
    answer for an unexpected failure, reports "could not head bucket" and
    leaves the record in place.  Read of a user that is missing does remove
    the record without an error, and on permission denied both Reads
    report an error and keep the record. *)
Theorem BucketResource_Read_missing_bucket_is_error :
  let client user_error bucket_error :=
    fixed_client (Err user_error) None (Ok None) (fun _ => None)
      (Some bucket_error) in
  let bucket := {| bucket_Id := Known "test"; bucket_Name := Known "test" |} in
  let user := alice Null Null (Known "AK1") (Known "SK1") in
  As bucket_not_found = Some "NotFound"
  /\ (let r := run (BucketResource.Read (client not_found bucket_not_found)
                      bucket) ∅ tt in
      trace r = [CallHeadBucket "test"]
      /\ State (response r) = Untouched
      /\ Diagnostics (response r)
         = [ {| diag.severity := diag.SeverityError; diag.attribute := None;
                diag.summary := "could not head bucket";
                diag.detail := "Not Found" |} ]
      /\ diag.HasError (Diagnostics (response r)) = true)
  /\ (let r := run (UserResource.Read (client not_found bucket_not_found)
                      user) ∅ tt in
      State (response r) = Removed /\ Diagnostics (response r) = [])
  /\ (let r := run (UserResource.Read (client access_denied bucket_forbidden)
                      user) ∅ tt in
      State (response r) = Untouched
      /\ Diagnostics (response r)
         = [ {| diag.severity := diag.SeverityError; diag.attribute := None;
                diag.summary := "could not get user";
                diag.detail := "AccessDenied" |} ])
  /\ (let r := run (BucketResource.Read (client access_denied bucket_forbidden)
                      bucket) ∅ tt in
      State (response r) = Untouched
      /\ diag.HasError (Diagnostics (response r)) = true).
Proof. vm_compute. repeat split. Qed.

(** Delete of a user tolerates "no such user" and surfaces any other
    remote error. *)
Lemma UserResource_Delete_errors {W} (client : RgwClient W)
  (data : UserResourceModel) (private : gmap string string) (w w' : W)
  (err : error) :
  Admin_RemoveUser client (UserResource.Delete_request data) w = (Some err, w') ->
  let r := run (UserResource.Delete client data) private w in
  diag.HasError (Diagnostics (response r))
  = negb (Is err admin.ErrNoSuchUser).
Proof.
  intros Hcall r. subst r. unfold UserResource.Delete. op_step.
  rewrite Hcall. destruct (Is err admin.ErrNoSuchUser); reflexivity.
Qed.

(** Delete of a bucket surfaces every remote error. *)
Lemma BucketResource_Delete_errors {W} (client : RgwClient W)
  (data : BucketResourceModel) (private : gmap string string) (w w' : W)
  (err : error) :
  S3_DeleteBucket client (ValueString (bucket_Id data)) w = (Some err, w') ->
  let r := run (BucketResource.Delete client data) private w in
  diag.HasError (Diagnostics (response r)) = true.
Proof.
  intros Hcall r. subst r. unfold BucketResource.Delete. op_step.
  rewrite Hcall. op_step. apply HasError_AddError.
Qed.

(** C7: Delete of a bucket that the remote system reports as not found
    does not succeed silently: it records the error "could not delete
    bucket", whereas Delete of a user that is already gone records none. *)
Theorem BucketResource_Delete_not_found_is_error :
  let client :=
    fixed_client (Err not_found) (Some not_found) (Ok None) (fun _ => None)
      (Some bucket_not_found) in
  let bucket := {| bucket_Id := Known "test"; bucket_Name := Known "test" |} in
  let user := alice Null Null (Known "AK1") (Known "SK1") in
  Diagnostics (response (run (UserResource.Delete client user) ∅ tt)) = []
  /\ trace (run (BucketResource.Delete client bucket) ∅ tt)
     = [CallDeleteBucket "test"]
  /\ Diagnostics (response (run (BucketResource.Delete client bucket) ∅ tt))
     = [ {| diag.severity := diag.SeverityError; diag.attribute := None;
            diag.summary := "could not delete bucket";
            diag.detail := "Not Found" |} ]
  /\ diag.HasError
       (Diagnostics (response (run (BucketResource.Delete client bucket) ∅ tt)))
     = true.
Proof. vm_compute. repeat split. Qed.

(** ** Caps sent to the admin API *)

(** Every cap Create and Update send carries the declared type in both of
    its fields. *)
Lemma request_caps_perm_is_type (data : UserResourceModel) :
  Forall (fun c => admin.Perm c = admin.Type_ c)
    (admin.Caps (UserResource.Create_request data))
  /\ admin.Caps (UserResource.Update_request data)
     = admin.Caps (UserResource.Create_request data).
Proof.
  split; [ | reflexivity ].
  unfold UserResource.Create_request. cbn [admin.Caps].
  induction (Caps data) as [| c caps IH]; constructor; [ reflexivity | exact IH ].
Qed.

(** C8: for the declared cap (type "users", permission "read") the create
    and modify requests carry the cap (type "users", perm "users"): the
    sent perm is the declared type, not the declared permission. *)
Theorem caps_perm_sent_as_type :
  let client :=
    fixed_client (Ok (remote_alice [])) None (Ok None) (fun _ => None) None in
  let data :=
    set_Caps [ {| Type_ := Known "users"; Perm := Known "read" |} ]
      (alice (Known false) Null Null Null) in
  declared_caps (Caps data)
  = [ {| admin.Type_ := "users"; admin.Perm := "read" |} ]
  /\ (exists u, trace (run (UserResource.Create client data) ∅ tt)
                = [CallCreateUser u]
                /\ admin.Caps u
                   = [ {| admin.Type_ := "users"; admin.Perm := "users" |} ])
  /\ (exists u, trace (run (UserResource.Update client data) ∅ tt)
                = [CallModifyUser u]
                /\ admin.Caps u
                   = [ {| admin.Type_ := "users"; admin.Perm := "users" |} ]).
Proof.
  intros client data. split; [ reflexivity | split ].
  - exists (UserResource.Create_request data). split; reflexivity.
  - exists (UserResource.Update_request data). split; reflexivity.
Qed.

(** ** Update with key generation switched off *)

(** C5: with [generate_s3_credentials = false] and the planned keys
    unknown, Update still removes the remote key and creates a new one:
    the key management of Update does not consult the flag. *)
Theorem Update_ignores_generate_flag :
  let client :=
    fixed_client (Ok (remote_alice [key "AK2" "SK2"])) None
      (Ok (Some [key "00000000000000000000" "SK"])) (fun _ => None) None in
  let data := alice (Known false) Null Unknown Unknown in
  let r := run (UserResource.Update client data) ∅ tt in
  trace r
  = [ CallModifyUser (UserResource.Update_request data);
      CallRemoveKey (admin.with_UID "alice" (key "AK2" "SK2"));
      CallCreateKey
        (UserResource.CreateKey_request "alice" "00000000000000000000") ]
  /\ existsb is_key_call (trace r) = true
  /\ State (response r)
     = Saved (alice (Known false) Null (Known "00000000000000000000")
                (Known "SK")).
Proof. vm_compute. repeat split. Qed.

(** ** Exclusive credentials left unset *)

Section ExclusiveUnset.

Context {W : Type} (client : RgwClient W).

(** The pass over the remote keys treats an unset flag as a set one. *)
Lemma Update_keys_exclusive_unset (user : admin.User)
  (keys : list admin.UserKeySpec) :
  forall (data : UserResourceModel) (m : Machine W UserResourceModel),
    ExclusiveS3Credentials data = Null ->
    UserResource.Update_keys client user keys
      (set_ExclusiveS3Credentials (Known true) data)
      (machine_map (set_ExclusiveS3Credentials (Known true)) m)
    = (outcome_map (set_ExclusiveS3Credentials (Known true))
         (fst (UserResource.Update_keys client user keys data m)),
       machine_map (set_ExclusiveS3Credentials (Known true))
         (snd (UserResource.Update_keys client user keys data m))).
Proof.
  induction keys as [| k rest IH]; intros data m Hnull.
  - reflexivity.
  - cbn [UserResource.Update_keys]. unfold machine_map at 1. op_step.
    cbn [AccessKey SecretKey ExclusiveS3Credentials set_ExclusiveS3Credentials].
    rewrite Hnull. cbn [ValueBool IsNull orb].
    destruct (negb (IsNull (AccessKey data)) && IsUnknown (SecretKey data)
              && String.eqb (admin.AccessKey k) (ValueString (AccessKey data))).
    + at_machine IH (set_SecretKey (StringValue (admin.SecretKey k)) data)
        Hnull.
    + op_step.
      destruct (Admin_RemoveKey client (admin.with_UID (admin.ID user) k)
                  (world m)) as [[err |] w']; op_step; at_machine IH data Hnull.
Qed.

Lemma randomAccessKey_machine_map (n : nat) :
  forall m : Machine W UserResourceModel,
    UserResource.randomAccessKey client n
      (machine_map (set_ExclusiveS3Credentials (Known true)) m)
    = (fst (UserResource.randomAccessKey client n m),
       machine_map (set_ExclusiveS3Credentials (Known true))
         (snd (UserResource.randomAccessKey client n m))).
Proof.
  induction n as [| n IH]; intros m.
  - reflexivity.
  - cbn [UserResource.randomAccessKey]. unfold machine_map at 1. op_step.
    destruct (rand_Intn client (String.length accessKeyBytes) (world m))
      as [i w'].
    destruct (String.get i accessKeyBytes) as [c |]; [ | reflexivity ].
    match goal with
    | |- context [UserResource.randomAccessKey _ _ ?m1] =>
        match goal with
        | |- _ = (?rhs, _) =>
            match rhs with
            | context [UserResource.randomAccessKey _ _ ?m0] =>
                change m1
                  with (machine_map (set_ExclusiveS3Credentials (Known true)) m0);
                rewrite (IH m0);
                destruct (UserResource.randomAccessKey client n m0)
                  as [[a | | msg] m2]
            end
        end
    end; reflexivity.
Qed.

Lemma Update_create_key_machine_map (user : admin.User)
  (data : UserResourceModel) (m : Machine W UserResourceModel) :
  UserResource.Update_create_key client user
    (set_ExclusiveS3Credentials (Known true) data)
    (machine_map (set_ExclusiveS3Credentials (Known true)) m)
  = (outcome_map (set_ExclusiveS3Credentials (Known true))
       (fst (UserResource.Update_create_key client user data m)),
     machine_map (set_ExclusiveS3Credentials (Known true))
       (snd (UserResource.Update_create_key client user data m))).
Proof.
  unfold UserResource.Update_create_key, machine_map at 1.
  repeat run_case; reflexivity.
Qed.

Lemma Update_generate_machine_map (user : admin.User)
  (data : UserResourceModel) (m : Machine W UserResourceModel) :
  UserResource.Update_generate client user
    (set_ExclusiveS3Credentials (Known true) data)
    (machine_map (set_ExclusiveS3Credentials (Known true)) m)
  = (outcome_map (set_ExclusiveS3Credentials (Known true))
       (fst (UserResource.Update_generate client user data m)),
     machine_map (set_ExclusiveS3Credentials (Known true))
       (snd (UserResource.Update_generate client user data m))).
Proof.
  unfold UserResource.Update_generate.
  cbn [set_ExclusiveS3Credentials AccessKey SecretKey].
  destruct (IsUnknown (SecretKey data)) eqn:Esk; [ | reflexivity ].
  destruct (IsUnknown (AccessKey data)) eqn:Eak; op_step.
  - rewrite randomAccessKey_machine_map.
    destruct (UserResource.randomAccessKey client 20 m) as [[a | | msg] m1];
      [ | reflexivity | reflexivity ].
    cbn [fst snd].
    apply (Update_create_key_machine_map user
             (set_AccessKey (StringValue a) data) m1).
  - apply Update_create_key_machine_map.
Qed.

(** Update with the flag unset runs as Update with the flag set: the same
    outcome, remote calls, diagnostics and private state; only the saved
    record differs, in the flag itself. *)
Lemma Update_exclusive_unset (data : UserResourceModel)
  (private : gmap string string) (w : W) :
  ExclusiveS3Credentials data = Null ->
  run (UserResource.Update client
         (set_ExclusiveS3Credentials (Known true) data)) private w
  = (fst (run (UserResource.Update client data) private w),
     machine_map (set_ExclusiveS3Credentials (Known true))
       (snd (run (UserResource.Update client data) private w))).
Proof.
  intros Hnull. unfold UserResource.Update.
  change (UserResource.Update_request
            (set_ExclusiveS3Credentials (Known true) data))
    with (UserResource.Update_request data).
  cbn [set_ExclusiveS3Credentials SecretKey]. op_step.
  destruct (Admin_ModifyUser client (UserResource.Update_request data) w)
    as [[user | err] w1]; [ | reflexivity ].
  destruct (IsUnknown (SecretKey data)); [ | reflexivity ].
  op_step.
  match goal with
  | |- context [UserResource.Update_keys _ _ _ data ?m0] =>
      change (UserResource.Update_keys client user (admin.Keys user)
                (set_ExclusiveS3Credentials (Known true) data) m0)
        with (UserResource.Update_keys client user (admin.Keys user)
                (set_ExclusiveS3Credentials (Known true) data)
                (machine_map (set_ExclusiveS3Credentials (Known true)) m0));
      rewrite (Update_keys_exclusive_unset user (admin.Keys user) data m0 Hnull);
      destruct (UserResource.Update_keys client user (admin.Keys user) data m0)
        as [[data1 | | msg] m1]
  end; [ | reflexivity | reflexivity ].
  cbn [fst snd outcome_map]. rewrite Update_generate_machine_map.
  destruct (UserResource.Update_generate client user data1 m1)
    as [[data2 | | msg] m2]; reflexivity.
Qed.

End ExclusiveUnset.

(** ** Read: credentials *)

Section ReadCredentials.

Context {W : Type} (client : RgwClient W).

(** The search for the recorded key issues no remote call and only writes
    private state. *)
Lemma Read_find_key_result (keys : list admin.UserKeySpec)
  (data : UserResourceModel) (m : Machine W UserResourceModel) :
  exists found data' private',
    UserResource.Read_find_key keys data m
    = (Val (found, data'),
       {| world := world m; calls := calls m;
          resp := {| State := State (resp m); Private := private';
                     Diagnostics := Diagnostics (resp m) |} |})
    /\ ExclusiveS3Credentials data' = ExclusiveS3Credentials data.
Proof.
  induction keys as [| k rest IH]; cbn [UserResource.Read_find_key].
  - exists false, data, (Private (resp m)). destruct m as [w c [st p d]].
    split; reflexivity.
  - destruct (String.eqb (admin.AccessKey k) (ValueString (AccessKey data))).
    + op_step. do 3 eexists. split; reflexivity.
    + exact IH.
Qed.

(** Read's merge of the remote attributes leaves the generation flag
    alone. *)
Lemma Read_merge_generate (user : admin.User) (id : string)
  (data : UserResourceModel) :
  GenerateS3Credentials
    (UserResource.Read_attributes user (UserResource.splitIdentity id data))
  = GenerateS3Credentials data.
Proof.
  unfold UserResource.Read_attributes, UserResource.splitIdentity.
  repeat match goal with
         | |- context [match ?x with _ => _ end] => destruct x
         end; reflexivity.
Qed.

(** Read issues the single remote call that fetches the user. *)
Lemma Read_trace (data : UserResourceModel) (private : gmap string string)
  (w : W) :
  trace (run (UserResource.Read client data) private w)
  = [CallGetUser (UserResource.Read_request data)].
Proof.
  unfold UserResource.Read. op_step.
  destruct (Admin_GetUser client (UserResource.Read_request data) w)
    as [[user | err] w'].
  - destruct (negb (String.eqb (ValueString (Id data)) (admin.ID user)));
      [ reflexivity | ].
    op_step.
    match goal with
    | |- context [if ?b then _ else _] => destruct b; [ | reflexivity ]
    end.
    op_step.
    match goal with
    | |- context [if ?b then _ else _] => destruct b
    end.
    + op_step.
      repeat match goal with
             | |- context [if ?b then _ else _] => destruct b
             end; reflexivity.
    + match goal with
      | |- context [UserResource.Read_find_key ?ks ?d ?m] =>
          destruct (Read_find_key_result ks d m)
            as (found & data' & private' & Hfind & _);
          rewrite Hfind
      end.
      op_step.
      repeat match goal with
             | |- context [if ?b then _ else _] => destruct b
             end; reflexivity.
  - destruct (Is err admin.ErrNoSuchUser); reflexivity.
Qed.

(** With key generation enabled, Read of a user that holds several remote
    keys saves the record with [exclusive_s3_credentials = false]. *)
Lemma Read_several_keys (data : UserResourceModel)
  (private : gmap string string) (w w' : W) (user : admin.User) :
  ValueBool (GenerateS3Credentials data)
  || IsNull (GenerateS3Credentials data) = true ->
  Admin_GetUser client (UserResource.Read_request data) w = (Ok user, w') ->
  admin.ID user = ValueString (Id data) ->
  1 < length (admin.Keys user) ->
  exists saved,
    State (response (run (UserResource.Read client data) private w))
    = Saved saved
    /\ ExclusiveS3Credentials saved = Known false.
Proof.
  intros Hgen Hcall Hid Hlen. unfold UserResource.Read. op_step.
  rewrite Hcall, Hid, String.eqb_refl. cbn [negb]. op_step.
  rewrite Read_merge_generate, Hgen.
  apply Nat.ltb_lt in Hlen.
  match goal with
  | |- context [if ?b then _ else _] => destruct b
  end.
  - op_step. rewrite Hlen. cbn [orb]. op_step. eexists. split; reflexivity.
  - match goal with
    | |- context [UserResource.Read_find_key ?ks ?d ?m] =>
        destruct (Read_find_key_result ks d m)
          as (found & data' & private' & Hfind & _);
        rewrite Hfind
    end.
    op_step. rewrite Hlen. cbn [orb].
    destruct (negb found); op_step; eexists; split; reflexivity.
Qed.

End ReadCredentials.

(** ** Update: removal of keys that are not the recorded one *)

Section UpdateKeys.

Context {W : Type} (client : RgwClient W).

(** When no remote key carries the recorded access key and the exclusive
    flag is set or unset, the pass over the keys issues one removal call
    per key, in order, whatever each call answers; it keeps the record, the
    saved state and the private state, never drops a diagnostic, and
    records a diagnostic for every key whose removal fails. *)
Lemma Update_keys_foreign (user : admin.User) (keys : list admin.UserKeySpec) :
  forall (data : UserResourceModel) (m : Machine W UserResourceModel),
    ValueBool (ExclusiveS3Credentials data)
    || IsNull (ExclusiveS3Credentials data) = true ->
    Forall (fun k => has_access_key (ValueString (AccessKey data)) k = false)
      keys ->
    exists m',
      UserResource.Update_keys client user keys data m = (Val data, m')
      /\ calls m'
         = calls m
           ++ map (fun k => CallRemoveKey (admin.with_UID (admin.ID user) k))
                keys
      /\ State (resp m') = State (resp m)
      /\ Private (resp m') = Private (resp m)
      /\ (forall d, d ∈ Diagnostics (resp m) -> d ∈ Diagnostics (resp m'))
      /\ (forall k err,
            k ∈ keys ->
            (forall w, fst (Admin_RemoveKey client
                              (admin.with_UID (admin.ID user) k) w)
                       = Some err) ->
            removal_failure k err ∈ Diagnostics (resp m')).
Proof.
  induction keys as [| k rest IH]; intros data m Hexcl Hforeign.
  - exists m. cbn [UserResource.Update_keys map]. rewrite app_nil_r.
    repeat split; try reflexivity; try (intros; assumption).
    intros k err Hin. apply elem_of_nil in Hin. contradiction.
  - apply Forall_cons in Hforeign as [Hk Hrest].
    unfold has_access_key in Hk.
    cbn [UserResource.Update_keys]. op_step. rewrite Hk, Hexcl.
    rewrite !andb_false_r. op_step.
    destruct (Admin_RemoveKey client (admin.with_UID (admin.ID user) k)
                (world m)) as [[err |] w'] eqn:Hcall; op_step.
    + match goal with
      | |- context [UserResource.Update_keys _ _ _ data ?m1] =>
          destruct (IH data m1 Hexcl Hrest)
            as (m' & Hrun & Hcalls & Hstate & Hprivate & Hkeep & Hfail)
      end.
      exists m'. cbn [calls resp State Private Diagnostics] in *.
      split; [ exact Hrun | ].
      split; [ rewrite Hcalls, <- app_assoc; reflexivity | ].
      split; [ exact Hstate | ].
      split; [ exact Hprivate | ].
      split.
      * intros d Hd. apply Hkeep. apply Append1_keeps. exact Hd.
      * intros k' err' Hin Hfails. apply elem_of_cons in Hin as [-> | Hin].
        -- apply Hkeep. specialize (Hfails (world m)). rewrite Hcall in Hfails.
           cbn [fst] in Hfails. injection Hfails as <-.
           apply Append1_records.
        -- apply (Hfail k' err' Hin Hfails).
    + match goal with
      | |- context [UserResource.Update_keys _ _ _ data ?m1] =>
          destruct (IH data m1 Hexcl Hrest)
            as (m' & Hrun & Hcalls & Hstate & Hprivate & Hkeep & Hfail)
      end.
      exists m'. cbn [calls resp State Private Diagnostics] in *.
      split; [ exact Hrun | ].
      split; [ rewrite Hcalls, <- app_assoc; reflexivity | ].
      split; [ exact Hstate | ].
      split; [ exact Hprivate | ].
      split; [ exact Hkeep | ].
      intros k' err' Hin Hfails. apply elem_of_cons in Hin as [-> | Hin].
      * specialize (Hfails (world m)). rewrite Hcall in Hfails.
        discriminate Hfails.
      * apply (Hfail k' err' Hin Hfails).
Qed.

Lemma randomAccessKey_calls (n : nat) :
  forall m : Machine W UserResourceModel,
    calls (snd (UserResource.randomAccessKey client n m)) = calls m.
Proof.
  induction n as [| n IH]; intros m; cbn [UserResource.randomAccessKey].
  - reflexivity.
  - op_step.
    destruct (rand_Intn client (String.length accessKeyBytes) (world m))
      as [i w'].
    destruct (String.get i accessKeyBytes) as [c |]; [ | reflexivity ].
    match goal with
    | |- context [UserResource.randomAccessKey _ _ ?m1] =>
        specialize (IH m1);
        destruct (UserResource.randomAccessKey client n m1) as [[a | | msg] m2]
    end; exact IH.
Qed.

(** The key-creation step issues exactly its one remote call. *)
Lemma Update_create_key_calls (user : admin.User) (data : UserResourceModel)
  (m : Machine W UserResourceModel) :
  calls (snd (UserResource.Update_create_key client user data m))
  = calls m
    ++ [CallCreateKey
          (UserResource.CreateKey_request (admin.ID user)
             (ValueString (AccessKey data)))].
Proof.
  unfold UserResource.Update_create_key. op_step.
  destruct (Admin_CreateKey client
              (UserResource.CreateKey_request (admin.ID user)
                 (ValueString (AccessKey data))) (world m))
    as [[[l |] | err] w']; op_step.
  - match goal with
    | |- context [find ?f l] => destruct (find f l)
    end; cbn [SecretKey set_SecretKey StringValue IsUnknown];
      [ reflexivity | destruct (IsUnknown (SecretKey data)); reflexivity ].
  - destruct (IsUnknown (SecretKey data)); reflexivity.
  - reflexivity.
Qed.

(** Key generation only ever appends to the call trace. *)
Lemma Update_generate_calls (user : admin.User) (data : UserResourceModel)
  (m : Machine W UserResourceModel) :
  exists extra,
    calls (snd (UserResource.Update_generate client user data m))
    = calls m ++ extra.
Proof.
  unfold UserResource.Update_generate.
  destruct (IsUnknown (SecretKey data));
    [ | exists []; rewrite app_nil_r; reflexivity ].
  destruct (IsUnknown (AccessKey data)); op_step.
  - pose proof (randomAccessKey_calls 20 m) as Hrand.
    destruct (UserResource.randomAccessKey client 20 m) as [[a | | msg] m1];
      cbn [snd] in Hrand.
    + eexists. rewrite Update_create_key_calls, Hrand. reflexivity.
    + exists []. rewrite app_nil_r. exact Hrand.
    + exists []. rewrite app_nil_r. exact Hrand.
  - eexists. apply Update_create_key_calls.
Qed.

End UpdateKeys.

(** Update removes every remote key when none of them carries the
    recorded access key and the exclusive flag is set or unset, whatever
    the key generation that follows does. *)
Lemma Update_removes_foreign_keys {W} (client : RgwClient W)
  (data : UserResourceModel) (private : gmap string string) (w w1 : W)
  (user : admin.User) :
  ValueBool (ExclusiveS3Credentials data)
  || IsNull (ExclusiveS3Credentials data) = true ->
  IsUnknown (SecretKey data) = true ->
  Admin_ModifyUser client (UserResource.Update_request data) w = (Ok user, w1) ->
  Forall (fun k => has_access_key (ValueString (AccessKey data)) k = false)
    (admin.Keys user) ->
  forall k, k ∈ admin.Keys user ->
    CallRemoveKey (admin.with_UID (admin.ID user) k)
    ∈ trace (run (UserResource.Update client data) private w).
Proof.
  intros Hexcl Hsk Hcall Hforeign k Hin.
  unfold UserResource.Update. op_step. rewrite Hcall, Hsk. op_step.
  match goal with
  | |- context [UserResource.Update_keys _ _ _ data ?m0] =>
      destruct (Update_keys_foreign client user (admin.Keys user) data m0
                  Hexcl Hforeign) as (m1 & Hrun & Hcalls & _)
  end.
  rewrite Hrun.
  destruct (Update_generate_calls client user data m1) as (extra & Hgen).
  destruct (UserResource.Update_generate client user data m1)
    as [[data2 | | msg] m2]; cbn [snd] in Hgen; op_step;
    rewrite Hgen, Hcalls; cbn [calls].
  all: apply elem_of_app; left; apply elem_of_app; right.
  all: apply list_elem_of_In;
    apply (in_map (fun k => CallRemoveKey (admin.with_UID (admin.ID user) k)));
    apply list_elem_of_In; exact Hin.
Qed.

(** C9: when [exclusive_s3_credentials] is unset, Update runs exactly as
    with the flag set to true (same outcome, remote calls, diagnostics and
    private state; the saved record differs in the flag only) and removes
    the remote keys that are not the recorded one; Read issues no remote
    call but the fetch of the user, so it never deletes a key; and in its
    credential branch, entered when [generate_s3_credentials] is true or
    unset, Read saves [exclusive_s3_credentials = false] after observing
    more than one remote key. *)
Theorem exclusive_flag_unset {W} (client : RgwClient W) (data : UserResourceModel)
  (private : gmap string string) (w : W) :
  ExclusiveS3Credentials data = Null ->
  (let r := run (UserResource.Update client data) private w in
   let r' := run (UserResource.Update client
                    (set_ExclusiveS3Credentials (Known true) data))
               private w in
   outcome r' = outcome r
   /\ trace r' = trace r
   /\ Diagnostics (response r') = Diagnostics (response r)
   /\ Private (response r') = Private (response r)
   /\ State (response r')
      = saved_map (set_ExclusiveS3Credentials (Known true))
          (State (response r)))
  /\ (forall user w1,
        IsUnknown (SecretKey data) = true ->
        Admin_ModifyUser client (UserResource.Update_request data) w
        = (Ok user, w1) ->
        Forall (fun k =>
                  has_access_key (ValueString (AccessKey data)) k = false)
          (admin.Keys user) ->
        forall k, k ∈ admin.Keys user ->
          CallRemoveKey (admin.with_UID (admin.ID user) k)
          ∈ trace (run (UserResource.Update client data) private w))
  /\ trace (run (UserResource.Read client data) private w)
     = [CallGetUser (UserResource.Read_request data)]
  /\ (forall user w1,
        ValueBool (GenerateS3Credentials data)
        || IsNull (GenerateS3Credentials data) = true ->
        Admin_GetUser client (UserResource.Read_request data) w
        = (Ok user, w1) ->
        admin.ID user = ValueString (Id data) ->
        1 < length (admin.Keys user) ->
        exists saved,
          State (response (run (UserResource.Read client data) private w))
          = Saved saved
          /\ ExclusiveS3Credentials saved = Known false).
Proof.
  intros Hnull. split; [ | split; [ | split ] ].
  - intros r r'. subst r r'.
    rewrite (Update_exclusive_unset client data private w Hnull).
    unfold outcome, trace, response. cbn [fst snd].
    repeat split.
  - intros user w1 Hsk Hcall Hforeign k Hin.
    apply (Update_removes_foreign_keys client data private w w1 user);
      try assumption.
    rewrite Hnull. reflexivity.
  - apply Read_trace.
  - intros user w1 Hgen Hcall Hid Hlen.
    apply (Read_several_keys client data private w w1 user Hgen Hcall Hid Hlen).
Qed.

Lemma exclusive_flag_unset_witness :
  let client :=
    fixed_client (Ok (remote_alice [key "AK2" "SK2"; key "AK3" "SK3"])) None
      (Ok (Some [key "AK1" "SK1"])) (fun _ => None) None in
  let data := alice Null Null (Known "AK1") Unknown in
  CallRemoveKey (admin.with_UID "alice" (key "AK3" "SK3"))
  ∈ trace (run (UserResource.Update client data) ∅ tt)
  /\ trace (run (UserResource.Update client
                   (set_ExclusiveS3Credentials (Known true) data)) ∅ tt)
     = trace (run (UserResource.Update client data) ∅ tt)
  /\ exists saved,
       State (response (run (UserResource.Read client data) ∅ tt))
       = Saved saved
       /\ ExclusiveS3Credentials saved = Known false.
Proof.
  intros client data.
  destruct (exclusive_flag_unset client data ∅ tt eq_refl)
    as (Hsame & Hremove & _ & Hread).
  split; [ | split ].
  - apply (Hremove (remote_alice [key "AK2" "SK2"; key "AK3" "SK3"]) tt
             eq_refl eq_refl).
    + repeat constructor.
    + apply list_elem_of_further, list_elem_of_here.
  - exact (proj1 (proj2 Hsame)).
  - apply (Hread (remote_alice [key "AK2" "SK2"; key "AK3" "SK3"]) tt
             eq_refl eq_refl eq_refl).
    apply le_n.
Defined.

(** ** Update: replacing a foreign key by the recorded one *)

(** C1: with the planned secret key unknown, the recorded access key AK1,
    the exclusive flag unset or true and a modify response that lists the
    single key AK2 (not AK1), Update removes AK2 (the removal call carries
    the user's id and AK2), then calls key creation for the user's id and
    the access key AK1, and saves the record with access key AK1 and the
    secret of the AK1 pair in the creation response; a failed removal is
    recorded as a diagnostic and stops nothing.  Over any list of remote
    keys that are not the recorded one, each key gets its removal call, in
    order, whatever the earlier removals answered, and each failed removal
    is recorded. *)
Theorem Update_replaces_foreign_key {W} (client : RgwClient W)
  (data : UserResourceModel) (user : admin.User) (AK1 : string) :
  let removal (k : admin.UserKeySpec) :=
    {| admin.UID := admin.ID user; admin.AccessKey := admin.AccessKey k;
       admin.SecretKey := admin.SecretKey k;
       admin.key_KeyType := admin.key_KeyType k;
       admin.key_GenerateKey := admin.key_GenerateKey k |} in
  let creation :=
    {| admin.UID := admin.ID user; admin.AccessKey := AK1;
       admin.SecretKey := ""; admin.key_KeyType := "s3";
       admin.key_GenerateKey := Some true |} in
  IsUnknown (SecretKey data) = true ->
  AccessKey data = Known AK1 ->
  ValueBool (ExclusiveS3Credentials data)
  || IsNull (ExclusiveS3Credentials data) = true ->
  (forall (private : gmap string string) (w w1 w2 w3 : W)
          (k2 k1 : admin.UserKeySpec) (e : option error)
          (created : list admin.UserKeySpec),
     Admin_ModifyUser client (UserResource.Update_request data) w
     = (Ok user, w1) ->
     admin.Keys user = [k2] ->
     admin.AccessKey k2 <> AK1 ->
     Admin_RemoveKey client (removal k2) w1 = (e, w2) ->
     Admin_CreateKey client creation w2 = (Ok (Some created), w3) ->
     find (fun k => String.eqb (admin.AccessKey k) AK1) created = Some k1 ->
     let r := run (UserResource.Update client data) private w in
     outcome r = Val tt
     /\ trace r
        = [ CallModifyUser (UserResource.Update_request data);
            CallRemoveKey (removal k2);
            CallCreateKey creation ]
     /\ admin.AccessKey k1 = AK1
     /\ (exists saved,
           State (response r) = Saved saved
           /\ AccessKey saved = Known AK1
           /\ SecretKey saved = Known (admin.SecretKey k1)
           /\ saved = set_SecretKey (Known (admin.SecretKey k1)) data)
     /\ Diagnostics (response r)
        = match e with
          | Some err =>
              [ {| diag.severity := diag.SeverityError;
                   diag.attribute := None;
                   diag.summary :=
                     "could not remove access key '" +:+ admin.AccessKey k2
                     +:+ "'";
                   diag.detail := Error err |} ]
          | None => []
          end
     /\ Private (response r)
        = <["mark_unknown_secret_key" := "0"]>
            (<["mark_unknown_access_key" := "0"]> private))
  /\ (forall (keys : list admin.UserKeySpec)
             (m : Machine W UserResourceModel),
        Forall (fun k => String.eqb (admin.AccessKey k) AK1 = false) keys ->
        exists m',
          UserResource.Update_keys client user keys data m = (Val data, m')
          /\ calls m' = calls m ++ map (fun k => CallRemoveKey (removal k)) keys
          /\ (forall k err,
                k ∈ keys ->
                (forall w, fst (Admin_RemoveKey client (removal k) w)
                           = Some err) ->
                {| diag.severity := diag.SeverityError;
                   diag.attribute := None;
                   diag.summary :=
                     "could not remove access key '" +:+ admin.AccessKey k
                     +:+ "'";
                   diag.detail := Error err |}
                ∈ Diagnostics (resp m'))).
Proof.
  intros removal creation Hsk Hak Hexcl. subst removal creation. split.
  - intros private w w1 w2 w3 k2 k1 e created
      Hmodify Hkeys Hforeign Hremove Hcreate Hfind r.
    subst r. apply String.eqb_neq in Hforeign.
    pose proof (find_some _ _ Hfind) as [_ Hk1]. apply String.eqb_eq in Hk1.
    unfold UserResource.Update. op_step. rewrite Hmodify, Hsk. op_step.
    rewrite Hkeys. cbn [UserResource.Update_keys]. op_step.
    rewrite Hak, Hsk. cbn [ValueString]. rewrite Hforeign, Hexcl.
    rewrite andb_false_r. op_step.
    change (admin.with_UID (admin.ID user) k2)
      with {| admin.UID := admin.ID user;
              admin.AccessKey := admin.AccessKey k2;
              admin.SecretKey := admin.SecretKey k2;
              admin.key_KeyType := admin.key_KeyType k2;
              admin.key_GenerateKey := admin.key_GenerateKey k2 |}.
    rewrite Hremove.
    destruct e as [err |]; op_step.
    all: unfold UserResource.Update_generate, UserResource.Update_create_key.
    all: repeat (progress (op_step; rewrite ?Hsk, ?Hak;
                           cbn [IsUnknown ValueString])).
    all: change (UserResource.CreateKey_request (admin.ID user) AK1)
           with {| admin.UID := admin.ID user; admin.AccessKey := AK1;
                   admin.SecretKey := ""; admin.key_KeyType := "s3";
                   admin.key_GenerateKey := Some true |}.
    all: rewrite Hcreate;
      repeat (progress (op_step; rewrite ?Hak; cbn [ValueString])).
    all: rewrite Hfind.
    all: cbn [SecretKey set_SecretKey StringValue IsUnknown]; op_step.
    all: split; [ reflexivity | split; [ reflexivity | ] ].
    all: split; [ exact Hk1 | split; [ | split; reflexivity ] ].
    all: eexists; split; [ reflexivity | ].
    all: cbn [AccessKey SecretKey]; split; [ exact Hak | ].
    all: split; reflexivity.
  - intros keys m Hforeign.
    assert (Hforeign' :
              Forall (fun k =>
                        has_access_key (ValueString (AccessKey data)) k = false)
                keys).
    { rewrite Hak. exact Hforeign. }
    destruct (Update_keys_foreign client user keys data m Hexcl Hforeign')
      as (m' & Hrun & Hcalls & _ & _ & _ & Hfail).
    exists m'. split; [ exact Hrun | split; [ exact Hcalls | exact Hfail ] ].
Qed.

Lemma Update_replaces_foreign_key_witness :
  let client :=
    fixed_client (Ok (remote_alice [key "AK2" "SK2"])) None
      (Ok (Some [key "AK1" "SK1"])) (fun _ => Some (Other "busy")) None in
  let data := alice Null Null (Known "AK1") Unknown in
  let removal ak sk :=
    {| admin.UID := "alice"; admin.AccessKey := ak; admin.SecretKey := sk;
       admin.key_KeyType := "s3"; admin.key_GenerateKey := None |} in
  let failure ak :=
    {| diag.severity := diag.SeverityError; diag.attribute := None;
       diag.summary := "could not remove access key '" +:+ ak +:+ "'";
       diag.detail := "busy" |} in
  let r := run (UserResource.Update client data) ∅ tt in
  (trace r
   = [ CallModifyUser (UserResource.Update_request data);
       CallRemoveKey (removal "AK2" "SK2");
       CallCreateKey
         {| admin.UID := "alice"; admin.AccessKey := "AK1";
            admin.SecretKey := ""; admin.key_KeyType := "s3";
            admin.key_GenerateKey := Some true |} ]
   /\ State (response r)
      = Saved (alice Null Null (Known "AK1") (Known "SK1"))
   /\ Diagnostics (response r) = [failure "AK2"])
  /\ exists m',
       UserResource.Update_keys client (remote_alice [])
         [key "AK2" "SK2"; key "AK3" "SK3"] data
         {| world := tt; calls := [];
            resp := {| State := Untouched; Private := ∅;
                       Diagnostics := [] |} |}
       = (Val data, m')
       /\ calls m'
          = [ CallRemoveKey (removal "AK2" "SK2");
              CallRemoveKey (removal "AK3" "SK3") ]
       /\ failure "AK3" ∈ Diagnostics (resp m').
Proof.
  intros client data removal failure r. split.
  - destruct (proj1 (Update_replaces_foreign_key client data
                       (remote_alice [key "AK2" "SK2"]) "AK1"
                       eq_refl eq_refl eq_refl)
                ∅ tt tt tt tt (key "AK2" "SK2") (key "AK1" "SK1")
                (Some (Other "busy")) [key "AK1" "SK1"]
                eq_refl eq_refl ltac:(discriminate) eq_refl eq_refl eq_refl)
      as (_ & Htrace & _ & (saved & Hstate & _ & _ & ->) & Hdiags & _).
    split; [ exact Htrace | split; [ exact Hstate | exact Hdiags ] ].
  - destruct (proj2 (Update_replaces_foreign_key client data
                       (remote_alice []) "AK1" eq_refl eq_refl eq_refl)
                [key "AK2" "SK2"; key "AK3" "SK3"]
                {| world := tt; calls := [];
                   resp := {| State := Untouched; Private := ∅;
                              Diagnostics := [] |} |}
                ltac:(repeat constructor))
      as (m' & Hrun & Hcalls & Hfail).
    exists m'. split; [ exact Hrun | split; [ exact Hcalls | ] ].
    apply (Hfail (key "AK3" "SK3") (Other "busy")).
    + apply list_elem_of_further, list_elem_of_here.
    + intros w. reflexivity.
Defined.

(** ** Key generation switched off: Create and Read *)

(** With [generate_s3_credentials = false], Create issues the user
    creation call only and saves the record with both keys null. *)
Lemma Create_without_generation {W} (client : RgwClient W)
  (data : UserResourceModel) (private : gmap string string) (w w' : W)
  (createdUser : admin.User) :
  GenerateS3Credentials data = Known false ->
  Admin_CreateUser client (UserResource.Create_request data) w
  = (Ok createdUser, w') ->
  let r := run (UserResource.Create client data) private w in
  trace r = [CallCreateUser (UserResource.Create_request data)]
  /\ State (response r)
     = Saved (set_SecretKey Null
                (set_AccessKey Null
                   (set_Id (Known (admin.ID createdUser)) data)))
  /\ Diagnostics (response r) = [].
Proof.
  intros Hgen Hcall r. subst r. unfold UserResource.Create. op_step.
  rewrite Hcall, Hgen. op_step. repeat split.
Qed.

(** With [generate_s3_credentials = false], Read saves the record with
    both keys null. *)
Lemma Read_without_generation {W} (client : RgwClient W)
  (data : UserResourceModel) (private : gmap string string) (w w' : W)
  (user : admin.User) :
  GenerateS3Credentials data = Known false ->
  Admin_GetUser client (UserResource.Read_request data) w = (Ok user, w') ->
  admin.ID user = ValueString (Id data) ->
  exists saved,
    State (response (run (UserResource.Read client data) private w))
    = Saved saved
    /\ AccessKey saved = Null /\ SecretKey saved = Null.
Proof.
  intros Hgen Hcall Hid. unfold UserResource.Read. op_step.
  rewrite Hcall, Hid, String.eqb_refl. cbn [negb]. op_step.
  rewrite Read_merge_generate, Hgen. op_step.
  eexists. repeat split.
Qed.

(** ** Update: a key-creation response without the expected pair *)




(** * Further properties of the resources *)

(** ** Read: what the merge and the credential step write *)

Lemma Read_merge_AccessKey (user : admin.User) (id : string)
  (data : UserResourceModel) :
  AccessKey
    (UserResource.Read_attributes user (UserResource.splitIdentity id data))
  = AccessKey data.
Proof. merged_field. Qed.

Lemma Read_merge_SecretKey (user : admin.User) (id : string)
  (data : UserResourceModel) :
  SecretKey
    (UserResource.Read_attributes user (UserResource.splitIdentity id data))
  = SecretKey data.
Proof. merged_field. Qed.

Lemma Read_merge_Exclusive (user : admin.User) (id : string)
  (data : UserResourceModel) :
  ExclusiveS3Credentials
    (UserResource.Read_attributes user (UserResource.splitIdentity id data))
  = ExclusiveS3Credentials data.
Proof. merged_field. Qed.

(** The search for the recorded key, in closed form: the first remote key
    with the recorded access key gives its secret and clears both marks. *)
Lemma Read_find_key_spec {W} (keys : list admin.UserKeySpec)
  (data : UserResourceModel) (m : Machine W UserResourceModel) :
  UserResource.Read_find_key keys data m
  = match find (has_access_key (ValueString (AccessKey data))) keys with
    | Some k =>
        (Val (true, set_SecretKey (Known (admin.SecretKey k)) data),
         {| world := world m; calls := calls m;
            resp := {| State := State (resp m);
                       Private :=
                         <["mark_unknown_secret_key" := "0"]>
                           (<["mark_unknown_access_key" := "0"]>
                              (Private (resp m)));
                       Diagnostics := Diagnostics (resp m) |} |})
    | None => (Val (false, data), m)
    end.
Proof.
  induction keys as [| k rest IH];
    cbn [UserResource.Read_find_key find]; [ reflexivity | ].
  unfold has_access_key at 1.
  destruct (String.eqb (admin.AccessKey k) (ValueString (AccessKey data)));
    [ reflexivity | exact IH ].
Qed.

(** The planned value the private-state modifiers leave, by the mark. *)
Lemma plan_access_key_spec (private : gmap string string)
  (req : planmodifier.Request string) :
  plan_access_key private req
  = match private !! "mark_unknown_access_key" with
    | Some v => if String.eqb v "1" then Unknown else PlanValue req
    | None => PlanValue req
    end.
Proof.
  unfold plan_access_key, PlanModifyString_private.
  change ("mark_unknown_" +:+ Suffix access_key_modifier) with "mark_unknown_access_key".
  destruct (private !! "mark_unknown_access_key") as [v |]; [ | reflexivity ].
  destruct (String.eqb v "1"); reflexivity.
Qed.

Lemma plan_secret_key_spec (private : gmap string string)
  (req : planmodifier.Request string) :
  plan_secret_key private req
  = match private !! "mark_unknown_secret_key" with
    | Some v => if String.eqb v "1" then Unknown else PlanValue req
    | None => PlanValue req
    end.
Proof.
  unfold plan_secret_key, PlanModifyString_private.
  change ("mark_unknown_" +:+ Suffix secret_key_modifier) with "mark_unknown_secret_key".
  destruct (private !! "mark_unknown_secret_key") as [v |]; [ | reflexivity ].
  destruct (String.eqb v "1"); reflexivity.
Qed.

Lemma marks_distinct : "mark_unknown_secret_key" <> "mark_unknown_access_key".
Proof. discriminate. Qed.

Section ReadDetail.

Context {W : Type} (client : RgwClient W).

(** X1.  Read with key generation enabled, when a remote key carries the
    recorded access key: the saved record keeps the access key and takes
    the secret of the first such remote key, both private marks are
    cleared, and the next plan leaves [access_key] and [secret_key] as
    planned. *)
Theorem Read_recovers_secret (data : UserResourceModel)
  (private : gmap string string) (w w' : W) (user : admin.User)
  (ak : string) (k : admin.UserKeySpec) :
  ValueBool (GenerateS3Credentials data)
  || IsNull (GenerateS3Credentials data) = true ->
  AccessKey data = Known ak ->
  Admin_GetUser client (UserResource.Read_request data) w = (Ok user, w') ->
  admin.ID user = ValueString (Id data) ->
  find (has_access_key ak) (admin.Keys user) = Some k ->
  let r := run (UserResource.Read client data) private w in
  (exists saved,
     State (response r) = Saved saved
     /\ AccessKey saved = Known ak
     /\ SecretKey saved = Known (admin.SecretKey k))
  /\ Private (response r)
     = <["mark_unknown_secret_key" := "0"]>
         (<["mark_unknown_access_key" := "0"]> private)
  /\ Diagnostics (response r) = []
  /\ (forall req,
        plan_access_key (Private (response r)) req = PlanValue req
        /\ plan_secret_key (Private (response r)) req = PlanValue req).
Proof.
  intros Hgen Hak Hcall Hid Hfind r. subst r.
  assert (Heq : String.eqb (ValueString (Id data)) (admin.ID user) = true)
    by (rewrite Hid; apply String.eqb_refl).
  unfold UserResource.Read. op_step. rewrite Hcall, Heq. cbn [negb]. op_step.
  rewrite Read_merge_generate, Hgen, Read_merge_AccessKey, Hak.
  cbn [IsNull IsUnknown orb]. rewrite Read_find_key_spec.
  rewrite Read_merge_AccessKey, Hak. cbn [ValueString]. rewrite Hfind.
  op_step. cbn [negb andb]. rewrite andb_false_r, orb_false_r.
  assert (Hmarks : forall req,
             plan_access_key
               (<["mark_unknown_secret_key" := "0"]>
                  (<["mark_unknown_access_key" := "0"]> private)) req
             = PlanValue req
             /\ plan_secret_key
                  (<["mark_unknown_secret_key" := "0"]>
                     (<["mark_unknown_access_key" := "0"]> private)) req
                = PlanValue req).
  { intros req. rewrite plan_access_key_spec, plan_secret_key_spec.
    rewrite lookup_insert_eq.
    rewrite lookup_insert_ne by exact marks_distinct.
    rewrite lookup_insert_eq. split; reflexivity. }
  destruct (1 <? length (admin.Keys user))%nat; op_step.
  all: split; [ eexists; split; [ reflexivity | ] | ].
  all: cbn [AccessKey SecretKey set_SecretKey set_ExclusiveS3Credentials].
  all: rewrite ?Read_merge_AccessKey.
  all: repeat split; try assumption; apply Hmarks.
Qed.

(** X2.  Read with key generation enabled, when no remote key carries the
    recorded access key: the saved record keeps its (stale) access and
    secret key, only the secret mark is raised, so the next plan marks
    [secret_key] unknown and treats [access_key] as the earlier private
    state says; any remote key at all switches the exclusive flag off. *)
Theorem Read_key_not_found (data : UserResourceModel)
  (private : gmap string string) (w w' : W) (user : admin.User)
  (ak : string) :
  ValueBool (GenerateS3Credentials data)
  || IsNull (GenerateS3Credentials data) = true ->
  AccessKey data = Known ak ->
  Admin_GetUser client (UserResource.Read_request data) w = (Ok user, w') ->
  admin.ID user = ValueString (Id data) ->
  find (has_access_key ak) (admin.Keys user) = None ->
  let r := run (UserResource.Read client data) private w in
  (exists saved,
     State (response r) = Saved saved
     /\ AccessKey saved = Known ak
     /\ SecretKey saved = SecretKey data
     /\ ExclusiveS3Credentials saved
        = match admin.Keys user with
          | [] => ExclusiveS3Credentials data
          | _ :: _ => Known false
          end)
  /\ Private (response r) = <["mark_unknown_secret_key" := "1"]> private
  /\ (forall req,
        plan_secret_key (Private (response r)) req = Unknown
        /\ plan_access_key (Private (response r)) req
           = plan_access_key private req).
Proof.
  intros Hgen Hak Hcall Hid Hfind r. subst r.
  assert (Heq : String.eqb (ValueString (Id data)) (admin.ID user) = true)
    by (rewrite Hid; apply String.eqb_refl).
  unfold UserResource.Read. op_step. rewrite Hcall, Heq. cbn [negb]. op_step.
  rewrite Read_merge_generate, Hgen, Read_merge_AccessKey, Hak.
  cbn [IsNull IsUnknown orb]. rewrite Read_find_key_spec.
  rewrite Read_merge_AccessKey, Hak. cbn [ValueString]. rewrite Hfind.
  op_step. cbn [negb]. op_step. rewrite andb_true_r.
  assert (Hmarks : forall req,
             plan_secret_key (<["mark_unknown_secret_key" := "1"]> private) req
             = Unknown
             /\ plan_access_key (<["mark_unknown_secret_key" := "1"]> private)
                  req
                = plan_access_key private req).
  { intros req. rewrite !plan_access_key_spec, plan_secret_key_spec.
    rewrite lookup_insert_eq.
    rewrite lookup_insert_ne by exact marks_distinct. split; reflexivity. }
  destruct (admin.Keys user) as [| k0 [| k1 rest]]; cbn [length Nat.ltb Nat.leb Nat.eqb orb];
    op_step.
  all: split; [ eexists; split; [ reflexivity | ] | split; [ reflexivity | apply Hmarks ] ].
  all: cbn [AccessKey SecretKey ExclusiveS3Credentials
            set_ExclusiveS3Credentials].
  all: rewrite ?Read_merge_AccessKey, ?Read_merge_SecretKey,
         ?Read_merge_Exclusive.
  all: repeat split; assumption.
Qed.

(** X3.  Read with key generation enabled, when the record holds no access
    key (null or unknown): the remote keys are not compared at all, both
    marks are raised, so the next plan marks both [access_key] and
    [secret_key] unknown, and the saved record keeps its credential
    fields. *)
Theorem Read_without_access_key (data : UserResourceModel)
  (private : gmap string string) (w w' : W) (user : admin.User) :
  ValueBool (GenerateS3Credentials data)
  || IsNull (GenerateS3Credentials data) = true ->
  IsNull (AccessKey data) || IsUnknown (AccessKey data) = true ->
  Admin_GetUser client (UserResource.Read_request data) w = (Ok user, w') ->
  admin.ID user = ValueString (Id data) ->
  let r := run (UserResource.Read client data) private w in
  (exists saved,
     State (response r) = Saved saved
     /\ AccessKey saved = AccessKey data
     /\ SecretKey saved = SecretKey data)
  /\ Private (response r)
     = <["mark_unknown_secret_key" := "1"]>
         (<["mark_unknown_access_key" := "1"]> private)
  /\ (forall req,
        plan_access_key (Private (response r)) req = Unknown
        /\ plan_secret_key (Private (response r)) req = Unknown).
Proof.
  intros Hgen Hak Hcall Hid r. subst r.
  assert (Heq : String.eqb (ValueString (Id data)) (admin.ID user) = true)
    by (rewrite Hid; apply String.eqb_refl).
  unfold UserResource.Read. op_step. rewrite Hcall, Heq. cbn [negb]. op_step.
  rewrite Read_merge_generate, Hgen, Read_merge_AccessKey, Hak. op_step.
  cbn [negb]. op_step.
  assert (Hmarks : forall req,
             plan_access_key
               (<["mark_unknown_secret_key" := "1"]>
                  (<["mark_unknown_access_key" := "1"]> private)) req
             = Unknown
             /\ plan_secret_key
                  (<["mark_unknown_secret_key" := "1"]>
                     (<["mark_unknown_access_key" := "1"]> private)) req
                = Unknown).
  { intros req. rewrite plan_access_key_spec, plan_secret_key_spec.
    rewrite lookup_insert_eq.
    rewrite lookup_insert_ne by exact marks_distinct.
    rewrite lookup_insert_eq. split; reflexivity. }
  match goal with
  | |- context [if ?b then _ else _] => destruct b
  end; op_step.
  all: split; [ eexists; split; [ reflexivity | ] | split; [ reflexivity | apply Hmarks ] ].
  all: cbn [AccessKey SecretKey set_ExclusiveS3Credentials].
  all: rewrite ?Read_merge_AccessKey, ?Read_merge_SecretKey.
  all: split; reflexivity.
Qed.

(** X4.  Read with key generation switched off: both keys are saved as
    null, both marks are cleared whatever the earlier private state, so
    the next plan leaves both fields as planned, and the exclusive flag is
    left alone whatever keys the remote user holds. *)
Theorem Read_generation_off (data : UserResourceModel)
  (private : gmap string string) (w w' : W) (user : admin.User) :
  GenerateS3Credentials data = Known false ->
  Admin_GetUser client (UserResource.Read_request data) w = (Ok user, w') ->
  admin.ID user = ValueString (Id data) ->
  let r := run (UserResource.Read client data) private w in
  (exists saved,
     State (response r) = Saved saved
     /\ AccessKey saved = Null /\ SecretKey saved = Null
     /\ ExclusiveS3Credentials saved = ExclusiveS3Credentials data)
  /\ (forall req,
        plan_access_key (Private (response r)) req = PlanValue req
        /\ plan_secret_key (Private (response r)) req = PlanValue req).
Proof.
  intros Hgen Hcall Hid r. subst r.
  assert (Heq : String.eqb (ValueString (Id data)) (admin.ID user) = true)
    by (rewrite Hid; apply String.eqb_refl).
  unfold UserResource.Read. op_step. rewrite Hcall, Heq. cbn [negb]. op_step.
  rewrite Read_merge_generate, Hgen. cbn [ValueBool IsNull orb]. op_step.
  split.
  - eexists. split; [ reflexivity | ].
    cbn [AccessKey SecretKey ExclusiveS3Credentials set_SecretKey set_AccessKey].
    rewrite Read_merge_Exclusive. repeat split.
  - intros req. rewrite plan_access_key_spec, plan_secret_key_spec.
    rewrite lookup_insert_eq.
    rewrite lookup_insert_ne by exact marks_distinct.
    rewrite lookup_insert_eq. split; reflexivity.
Qed.

(** X5.  Read, when the remote system answers with a user whose id is not
    the recorded one: one error naming both ids, and neither the record
    nor the private state is written. *)
Theorem Read_wrong_user (data : UserResourceModel)
  (private : gmap string string) (w w' : W) (user : admin.User) :
  Admin_GetUser client (UserResource.Read_request data) w = (Ok user, w') ->
  admin.ID user <> ValueString (Id data) ->
  let r := run (UserResource.Read client data) private w in
  State (response r) = Untouched
  /\ Private (response r) = private
  /\ Diagnostics (response r)
     = [ {| diag.severity := diag.SeverityError; diag.attribute := None;
            diag.summary := "api returned wrong user";
            diag.detail :=
              "expected user '" +:+ ValueString (Id data) +:+ "', got '"
              +:+ admin.ID user +:+ "'" |} ]
  /\ outcome r = Return.
Proof.
  intros Hcall Hid r. subst r.
  assert (Hne : String.eqb (ValueString (Id data)) (admin.ID user) = false)
    by (apply String.eqb_neq; congruence).
  unfold UserResource.Read. op_step. rewrite Hcall, Hne. cbn [negb]. op_step.
  repeat split.
Qed.

End ReadDetail.

(** ** Read: the attributes merged from the remote user *)

(** The merged e-mail: the remote one, except that an unset e-mail stays
    unset when the remote e-mail is empty. *)
Lemma Read_merge_Email (user : admin.User) (id : string)
  (data : UserResourceModel) :
  Email (UserResource.Read_attributes user (UserResource.splitIdentity id data))
  = if String.eqb (admin.Email user) "" && IsNull (Email data)
    then Null else Known (admin.Email user).
Proof.
  unfold UserResource.Read_attributes, UserResource.splitIdentity.
  destruct data as [i u dn em g ex cp om mb su tn ak sk pd].
  destruct (strings.SplitN id "$" 2) as [| ? [| ? [| ? ?]]];
    destruct (admin.Caps user), (admin.MaxBuckets user),
      (admin.Suspended user) as [n |];
    try destruct (n <? 1)%Z;
    destruct (admin.Email user) as [| ch rest], em as [| | e];
    reflexivity.
Qed.

(** The merged caps: the remote ones with their own type and perm, or the
    recorded ones when the remote user has none. *)
Lemma Read_merge_Caps (user : admin.User) (id : string)
  (data : UserResourceModel) :
  Caps (UserResource.Read_attributes user (UserResource.splitIdentity id data))
  = match admin.Caps user with
    | [] => Caps data
    | _ :: _ =>
        map (fun c => {| Type_ := Known (admin.Type_ c);
                         Perm := Known (admin.Perm c) |}) (admin.Caps user)
    end.
Proof.
  unfold UserResource.Read_attributes, UserResource.splitIdentity.
  destruct data as [i u dn em g ex cp om mb su tn ak sk pd].
  destruct (strings.SplitN id "$" 2) as [| ? [| ? [| ? ?]]];
    destruct (admin.Caps user), (admin.MaxBuckets user),
      (admin.Suspended user) as [n |];
    try destruct (n <? 1)%Z;
    destruct (admin.Email user) as [| ch rest], em as [| | e];
    reflexivity.
Qed.

(** The merged quota and suspension, and the fields the merge never
    writes. *)
Lemma Read_merge_rest (user : admin.User) (id : string)
  (data : UserResourceModel) :
  let merged :=
    UserResource.Read_attributes user (UserResource.splitIdentity id data) in
  DisplayName merged = Known (admin.DisplayName user)
  /\ MaxBuckets merged
     = match admin.MaxBuckets user with
       | Some n => Known n
       | None => MaxBuckets data
       end
  /\ Suspended merged
     = match admin.Suspended user with
       | Some n => Known (1 <=? n)%Z
       | None => Suspended data
       end
  /\ OpMask merged = OpMask data
  /\ Id merged = Id data
  /\ PurgeDataOnDelete merged = PurgeDataOnDelete data
  /\ GenerateS3Credentials merged = GenerateS3Credentials data.
Proof.
  cbv zeta. split; [ merged_field | ]. split; [ merged_field | ].
  split; [ | repeat split; merged_field ].
  unfold UserResource.Read_attributes.
  destruct (admin.Suspended user) as [n |]; [ | merged_field ].
  rewrite (Z.leb_antisym n 1). destruct (n <? 1)%Z; reflexivity.
Qed.

Section ReadAttributes.

Context {W : Type} (client : RgwClient W).

(** A successful Read saves the merged record, up to the three fields of
    its credential step. *)
Lemma Read_saved_frame (data : UserResourceModel)
  (private : gmap string string) (w w' : W) (user : admin.User) :
  Admin_GetUser client (UserResource.Read_request data) w = (Ok user, w') ->
  admin.ID user = ValueString (Id data) ->
  exists saved,
    State (response (run (UserResource.Read client data) private w))
    = Saved saved
    /\ with_credentials_of (Read_merged user data) saved
       = Read_merged user data.
Proof.
  intros Hcall Hid.
  assert (Heq : String.eqb (ValueString (Id data)) (admin.ID user) = true)
    by (rewrite Hid; apply String.eqb_refl).
  unfold UserResource.Read. op_step. rewrite Hcall, Heq. cbn [negb]. op_step.
  change (UserResource.Read_attributes user
            (UserResource.splitIdentity (admin.ID user) data))
    with (Read_merged user data).
  generalize (Read_merged user data). intros merged.
  destruct (ValueBool (GenerateS3Credentials merged)
            || IsNull (GenerateS3Credentials merged)).
  - destruct (IsNull (AccessKey merged) || IsUnknown (AccessKey merged)).
    + op_step. cbn [negb]. op_step.
      match goal with
      | |- context [if ?b then _ else _] => destruct b
      end; op_step; eexists; (split; [ reflexivity | ]);
        destruct merged; reflexivity.
    + rewrite Read_find_key_spec.
      destruct (find _ (admin.Keys user)); op_step; cbn [negb]; op_step.
      all: match goal with
           | |- context [if ?b then _ else _] => destruct b
           end; op_step; eexists; (split; [ reflexivity | ]);
        destruct merged; reflexivity.
  - op_step. eexists. split; [ reflexivity | ]. destruct merged; reflexivity.
Qed.

(** X6.  A successful Read saves the remote e-mail, except that an unset
    e-mail stays unset when the remote e-mail is empty: an empty e-mail is
    kept distinct from an unset one. *)
Theorem Read_email (data : UserResourceModel)
  (private : gmap string string) (w w' : W) (user : admin.User) :
  Admin_GetUser client (UserResource.Read_request data) w = (Ok user, w') ->
  admin.ID user = ValueString (Id data) ->
  exists saved,
    State (response (run (UserResource.Read client data) private w))
    = Saved saved
    /\ Email saved
       = if String.eqb (admin.Email user) "" && IsNull (Email data)
         then Null else Known (admin.Email user).
Proof.
  intros Hcall Hid.
  destruct (Read_saved_frame data private w w' user Hcall Hid)
    as (saved & Hstate & Hframe).
  exists saved. split; [ exact Hstate | ].
  apply (f_equal Email) in Hframe. cbn in Hframe. rewrite Hframe.
  apply Read_merge_Email.
Qed.

(** X7.  A successful Read replaces the recorded caps by the remote caps,
    each with its own type and perm, when the remote user has some; when
    the remote user has none the recorded caps are kept, not cleared. *)
Theorem Read_caps (data : UserResourceModel)
  (private : gmap string string) (w w' : W) (user : admin.User) :
  Admin_GetUser client (UserResource.Read_request data) w = (Ok user, w') ->
  admin.ID user = ValueString (Id data) ->
  exists saved,
    State (response (run (UserResource.Read client data) private w))
    = Saved saved
    /\ (admin.Caps user = [] -> Caps saved = Caps data)
    /\ (admin.Caps user <> [] ->
        Caps saved
        = map (fun c => {| Type_ := Known (admin.Type_ c);
                           Perm := Known (admin.Perm c) |})
            (admin.Caps user)).
Proof.
  intros Hcall Hid.
  destruct (Read_saved_frame data private w w' user Hcall Hid)
    as (saved & Hstate & Hframe).
  exists saved. split; [ exact Hstate | ].
  apply (f_equal Caps) in Hframe. cbn in Hframe. rewrite Hframe.
  unfold Read_merged. rewrite Read_merge_Caps.
  destruct (admin.Caps user); split; congruence.
Qed.

(** X8.  A successful Read takes the display name, the bucket quota and
    the suspension (suspended exactly when the remote value is at least 1)
    from the remote user, keeping the recorded quota or suspension when the
    remote user carries none; it never refreshes [op_mask], and leaves the
    id, the purge flag and the generation flag as recorded. *)
Theorem Read_attributes_saved (data : UserResourceModel)
  (private : gmap string string) (w w' : W) (user : admin.User) :
  Admin_GetUser client (UserResource.Read_request data) w = (Ok user, w') ->
  admin.ID user = ValueString (Id data) ->
  exists saved,
    State (response (run (UserResource.Read client data) private w))
    = Saved saved
    /\ DisplayName saved = Known (admin.DisplayName user)
    /\ MaxBuckets saved
       = match admin.MaxBuckets user with
         | Some n => Known n
         | None => MaxBuckets data
         end
    /\ Suspended saved
       = match admin.Suspended user with
         | Some n => Known (1 <=? n)%Z
         | None => Suspended data
         end
    /\ OpMask saved = OpMask data
    /\ Id saved = Id data
    /\ PurgeDataOnDelete saved = PurgeDataOnDelete data
    /\ GenerateS3Credentials saved = GenerateS3Credentials data.
Proof.
  intros Hcall Hid.
  destruct (Read_saved_frame data private w w' user Hcall Hid)
    as (saved & Hstate & Hframe).
  exists saved. split; [ exact Hstate | ].
  pose proof (Read_merge_rest user (admin.ID user) data) as Hrest.
  cbn zeta in Hrest. fold (Read_merged user data) in Hrest.
  rewrite <- Hframe in Hrest. cbn in Hrest. exact Hrest.
Qed.

End ReadAttributes.

(** ** Create and Update: the first remote call and the key pass *)

Section UpdateDetail.

Context {W : Type} (client : RgwClient W).

(** X9.  When the user creation call of Create, or the user modification
    call of Update, fails, the operation issues no further remote call,
    records one error carrying the remote error text, and saves no
    record. *)
Theorem first_call_failure (data : UserResourceModel)
  (private : gmap string string) (w w' : W) (err : error) :
  (Admin_CreateUser client (UserResource.Create_request data) w
   = (Err err, w') ->
   let r := run (UserResource.Create client data) private w in
   trace r = [CallCreateUser (UserResource.Create_request data)]
   /\ State (response r) = Untouched
   /\ Diagnostics (response r)
      = [ {| diag.severity := diag.SeverityError; diag.attribute := None;
             diag.summary := "could not create user";
             diag.detail := Error err |} ])
  /\ (Admin_ModifyUser client (UserResource.Update_request data) w
      = (Err err, w') ->
      let r := run (UserResource.Update client data) private w in
      trace r = [CallModifyUser (UserResource.Update_request data)]
      /\ State (response r) = Untouched
      /\ Diagnostics (response r)
         = [ {| diag.severity := diag.SeverityError; diag.attribute := None;
                diag.summary := "could not modify user";
                diag.detail := Error err |} ]).
Proof.
  split; intros Hcall r; subst r.
  - unfold UserResource.Create. op_step. rewrite Hcall. op_step.
    repeat split.
  - unfold UserResource.Update. op_step. rewrite Hcall. op_step.
    repeat split.
Qed.

(** X10.  Update with a planned secret key that is not unknown manages no
    keys: the modification call is its only remote call, and the plan is
    saved as it is, with the private state untouched. *)
Theorem Update_known_secret (data : UserResourceModel)
  (private : gmap string string) (w w' : W) (user : admin.User) :
  IsUnknown (SecretKey data) = false ->
  Admin_ModifyUser client (UserResource.Update_request data) w = (Ok user, w') ->
  let r := run (UserResource.Update client data) private w in
  trace r = [CallModifyUser (UserResource.Update_request data)]
  /\ State (response r) = Saved data
  /\ Private (response r) = private
  /\ Diagnostics (response r) = [].
Proof.
  intros Hsk Hcall r. subst r.
  unfold UserResource.Update. op_step. rewrite Hcall, Hsk. op_step.
  repeat split.
Qed.

(** The pass over the remote keys once the secret key is known: every key
    is removed when the exclusive flag is set or unset, none otherwise; the
    record, the saved state and the private state stay. *)
Lemma Update_keys_known_secret (user : admin.User)
  (keys : list admin.UserKeySpec) :
  forall (data : UserResourceModel) (m : Machine W UserResourceModel),
    IsUnknown (SecretKey data) = false ->
    exists m',
      UserResource.Update_keys client user keys data m = (Val data, m')
      /\ calls m'
         = calls m
           ++ (if ValueBool (ExclusiveS3Credentials data)
                  || IsNull (ExclusiveS3Credentials data)
               then map (fun k =>
                           CallRemoveKey (admin.with_UID (admin.ID user) k))
                      keys
               else [])
      /\ State (resp m') = State (resp m)
      /\ Private (resp m') = Private (resp m).
Proof.
  induction keys as [| k rest IH]; intros data m Hsk.
  - exists m. cbn [UserResource.Update_keys map].
    destruct (ValueBool _ || IsNull _); rewrite app_nil_r; repeat split.
  - cbn [UserResource.Update_keys]. op_step. rewrite Hsk.
    rewrite andb_false_r. cbn [andb].
    destruct (ValueBool (ExclusiveS3Credentials data)
              || IsNull (ExclusiveS3Credentials data)) eqn:Hexcl; op_step.
    + destruct (Admin_RemoveKey client (admin.with_UID (admin.ID user) k)
                  (world m)) as [[err |] w']; op_step.
      all: match goal with
           | |- context [UserResource.Update_keys _ _ _ ?d ?m1] =>
               destruct (IH d m1 Hsk)
                 as (m' & Hrun & Hcalls & Hstate & Hprivate)
           end.
      all: exists m'; rewrite Hexcl in Hcalls;
        cbn [calls resp State Private] in *.
      all: split; [ exact Hrun | ].
      all: split; [ rewrite Hcalls, <- app_assoc; reflexivity | ].
      all: split; assumption.
    + destruct (IH data m Hsk) as (m' & Hrun & Hcalls & Hstate & Hprivate).
      exists m'. rewrite Hexcl in Hcalls.
      split; [ exact Hrun | ]. split; [ exact Hcalls | ].
      split; assumption.
Qed.

(** The pass over the remote keys when one of them carries the recorded
    access key: the secret of the first such key is taken and the secret
    mark cleared; every other key is removed when the exclusive flag is set
    or unset, none otherwise. *)
Lemma Update_keys_matched (user : admin.User) (ak : string)
  (keys : list admin.UserKeySpec) :
  forall (data : UserResourceModel) (m : Machine W UserResourceModel)
         (k : admin.UserKeySpec),
    AccessKey data = Known ak ->
    IsUnknown (SecretKey data) = true ->
    find (has_access_key ak) keys = Some k ->
    exists m',
      UserResource.Update_keys client user keys data m
      = (Val (set_SecretKey (Known (admin.SecretKey k)) data), m')
      /\ calls m'
         = calls m
           ++ (if ValueBool (ExclusiveS3Credentials data)
                  || IsNull (ExclusiveS3Credentials data)
               then map (fun k =>
                           CallRemoveKey (admin.with_UID (admin.ID user) k))
                      (without_first ak keys)
               else [])
      /\ State (resp m') = State (resp m)
      /\ Private (resp m')
         = <["mark_unknown_secret_key" := "0"]> (Private (resp m)).
Proof.
  induction keys as [| k0 rest IH]; intros data m k Hak Hsk Hfind.
  - discriminate Hfind.
  - cbn [find] in Hfind. cbn [UserResource.Update_keys without_first].
    op_step. rewrite Hak, Hsk. cbn [IsNull negb andb ValueString].
    unfold has_access_key in Hfind at 1. unfold has_access_key at 1.
    destruct (String.eqb (admin.AccessKey k0) ak) eqn:Hk0; op_step.
    + injection Hfind as <-.
      match goal with
      | |- context [UserResource.Update_keys _ _ _ ?d ?m1] =>
          destruct (Update_keys_known_secret user rest d m1 eq_refl)
            as (m' & Hrun & Hcalls & Hstate & Hprivate)
      end.
      exists m'. cbn [calls resp State Private ExclusiveS3Credentials
                      set_SecretKey] in *.
      split; [ exact Hrun | ]. split; [ exact Hcalls | ].
      split; assumption.
    + destruct (ValueBool (ExclusiveS3Credentials data)
                || IsNull (ExclusiveS3Credentials data)) eqn:Hexcl; op_step.
      * destruct (Admin_RemoveKey client (admin.with_UID (admin.ID user) k0)
                    (world m)) as [[err |] w']; op_step.
        all: match goal with
             | |- context [UserResource.Update_keys _ _ _ ?d ?m1] =>
                 destruct (IH d m1 k Hak Hsk Hfind)
                   as (m' & Hrun & Hcalls & Hstate & Hprivate)
             end.
        all: exists m'; rewrite Hexcl in Hcalls;
          cbn [calls resp State Private map] in *.
        all: split; [ exact Hrun | ].
        all: split; [ rewrite Hcalls, <- app_assoc; reflexivity | ].
        all: split; assumption.
      * destruct (IH data m k Hak Hsk Hfind)
          as (m' & Hrun & Hcalls & Hstate & Hprivate).
        exists m'. rewrite Hexcl in Hcalls.
        split; [ exact Hrun | ]. split; [ exact Hcalls | ].
        split; assumption.
Qed.

(** X11.  Update with the secret key unknown, when the modified user holds
    a key with the recorded access key: the secret of the first such key
    is saved and the secret mark cleared, no key is created, and the remote
    calls are the modification followed by the removal of every other
    remote key (when the exclusive flag is set or unset) or by nothing
    (when it is false). *)
Theorem Update_recovers_secret (data : UserResourceModel)
  (private : gmap string string) (w w1 : W) (user : admin.User)
  (ak : string) (k : admin.UserKeySpec) :
  AccessKey data = Known ak ->
  IsUnknown (SecretKey data) = true ->
  Admin_ModifyUser client (UserResource.Update_request data) w = (Ok user, w1) ->
  find (has_access_key ak) (admin.Keys user) = Some k ->
  let r := run (UserResource.Update client data) private w in
  State (response r) = Saved (set_SecretKey (Known (admin.SecretKey k)) data)
  /\ Private (response r) = <["mark_unknown_secret_key" := "0"]> private
  /\ trace r
     = CallModifyUser (UserResource.Update_request data)
       :: (if ValueBool (ExclusiveS3Credentials data)
              || IsNull (ExclusiveS3Credentials data)
           then map (fun k =>
                       CallRemoveKey (admin.with_UID (admin.ID user) k))
                  (without_first ak (admin.Keys user))
           else [])
  /\ existsb is_create_key (trace r) = false.
Proof.
  intros Hak Hsk Hcall Hfind r. subst r.
  unfold UserResource.Update. op_step. rewrite Hcall, Hsk. op_step.
  match goal with
  | |- context [UserResource.Update_keys _ _ _ data ?m0] =>
      destruct (Update_keys_matched user ak (admin.Keys user) data m0 k
                  Hak Hsk Hfind)
        as (m1 & Hrun & Hcalls & Hstate & Hprivate)
  end.
  rewrite Hrun. unfold UserResource.Update_generate.
  cbn [SecretKey set_SecretKey IsUnknown]. op_step.
  cbn [calls resp State Private app] in *.
  rewrite Hcalls, Hprivate.
  split; [ reflexivity | ]. split; [ reflexivity | ].
  split; [ reflexivity | ].
  cbn [existsb is_create_key orb].
  destruct (ValueBool _ || IsNull _); [ | reflexivity ].
  clear Hcalls.
  induction (without_first ak (admin.Keys user)) as [| k' ks IHks];
    [ reflexivity | exact IHks ].
Qed.

End UpdateDetail.

(** ** Update: keys that stay, keys that are generated *)

(** Every index below the length of [accessKeyBytes] holds a byte of it. *)
Lemma accessKeyBytes_get (i : nat) :
  i < String.length accessKeyBytes ->
  exists c, String.get i accessKeyBytes = Some c
            /\ strings.Contains accessKeyBytes c = true.
Proof.
  intros Hi.
  do 36 (destruct i as [| i]; [ eexists; split; reflexivity | ]).
  cbn in Hi. lia.
Qed.

Section UpdateGenerate.

Context {W : Type} (client : RgwClient W).

(** With the exclusive flag false the pass over the remote keys issues no
    remote call at all. *)
Lemma Update_keys_not_exclusive (user : admin.User)
  (keys : list admin.UserKeySpec) :
  forall (data : UserResourceModel) (m : Machine W UserResourceModel),
    ExclusiveS3Credentials data = Known false ->
    exists data' m',
      UserResource.Update_keys client user keys data m = (Val data', m')
      /\ calls m' = calls m.
Proof.
  induction keys as [| k rest IH]; intros data m Hexcl.
  - exists data, m. split; reflexivity.
  - cbn [UserResource.Update_keys]. op_step. rewrite Hexcl.
    cbn [ValueBool IsNull orb].
    destruct (negb (IsNull (AccessKey data)) && IsUnknown (SecretKey data)
              && String.eqb (admin.AccessKey k) (ValueString (AccessKey data)));
      op_step.
    + match goal with
      | |- context [UserResource.Update_keys _ _ _ ?d ?m1] =>
          destruct (IH d m1 Hexcl) as (data' & m' & Hrun & Hcalls)
      end.
      exists data', m'. split; [ exact Hrun | exact Hcalls ].
    + apply (IH data m Hexcl).
Qed.

(** Key generation appends at most key-creation calls to the trace. *)
Lemma Update_generate_calls_create (user : admin.User)
  (data : UserResourceModel) (m : Machine W UserResourceModel) :
  exists extra,
    calls (snd (UserResource.Update_generate client user data m))
    = calls m ++ extra
    /\ existsb is_remove_key extra = false.
Proof.
  unfold UserResource.Update_generate.
  destruct (IsUnknown (SecretKey data));
    [ | exists []; rewrite app_nil_r; split; reflexivity ].
  destruct (IsUnknown (AccessKey data)); op_step.
  - pose proof (randomAccessKey_calls client 20 m) as Hrand.
    destruct (UserResource.randomAccessKey client 20 m) as [[a | | msg] m1];
      cbn [snd] in Hrand.
    + eexists. rewrite Update_create_key_calls, Hrand.
      split; reflexivity.
    + exists []. rewrite app_nil_r. split; [ exact Hrand | reflexivity ].
    + exists []. rewrite app_nil_r. split; [ exact Hrand | reflexivity ].
  - eexists. rewrite Update_create_key_calls. split; reflexivity.
Qed.

(** X12.  With [exclusive_s3_credentials = false] Update never removes a
    remote key, whatever keys the modified user holds and whatever the
    remote system answers. *)
Theorem Update_not_exclusive_keeps_keys (data : UserResourceModel)
  (private : gmap string string) (w : W) :
  ExclusiveS3Credentials data = Known false ->
  existsb is_remove_key
    (trace (run (UserResource.Update client data) private w)) = false.
Proof.
  intros Hexcl. unfold UserResource.Update. op_step.
  destruct (Admin_ModifyUser client (UserResource.Update_request data) w)
    as [[user | err] w1]; [ | reflexivity ].
  destruct (IsUnknown (SecretKey data)); [ | reflexivity ].
  op_step.
  match goal with
  | |- context [UserResource.Update_keys _ _ _ ?d ?m0] =>
      destruct (Update_keys_not_exclusive user (admin.Keys user) d m0 Hexcl)
        as (data1 & m1 & Hrun & Hcalls)
  end.
  rewrite Hrun.
  destruct (Update_generate_calls_create user data1 m1)
    as (extra & Hgen & Hextra).
  destruct (UserResource.Update_generate client user data1 m1)
    as [[data2 | | msg] m2]; cbn [snd] in Hgen; op_step;
    rewrite Hgen, Hcalls; cbn [calls app existsb is_remove_key orb];
    exact Hextra.
Qed.

(** X13.  When the key-creation call fails, Update stops with the error
    "could not generate s3 credentials" and saves no record, although the
    user has been modified and the foreign remote keys have been removed
    by then. *)
Theorem Update_key_creation_failure (data : UserResourceModel)
  (private : gmap string string) (w w1 : W) (user : admin.User)
  (ak : string) (err : error) :
  AccessKey data = Known ak ->
  IsUnknown (SecretKey data) = true ->
  ValueBool (ExclusiveS3Credentials data)
  || IsNull (ExclusiveS3Credentials data) = true ->
  Admin_ModifyUser client (UserResource.Update_request data) w = (Ok user, w1) ->
  Forall (fun k => has_access_key ak k = false) (admin.Keys user) ->
  (forall w2, fst (Admin_CreateKey client
                     (UserResource.CreateKey_request (admin.ID user) ak) w2)
              = Err err) ->
  let r := run (UserResource.Update client data) private w in
  outcome r = Return
  /\ State (response r) = Untouched
  /\ trace r
     = CallModifyUser (UserResource.Update_request data)
       :: map (fun k => CallRemoveKey (admin.with_UID (admin.ID user) k))
            (admin.Keys user)
       ++ [CallCreateKey (UserResource.CreateKey_request (admin.ID user) ak)]
  /\ {| diag.severity := diag.SeverityError; diag.attribute := None;
        diag.summary := "could not generate s3 credentials";
        diag.detail := Error err |} ∈ Diagnostics (response r).
Proof.
  intros Hak Hsk Hexcl Hcall Hforeign Hfail r. subst r.
  assert (Hforeign' :
            Forall (fun k =>
                      has_access_key (ValueString (AccessKey data)) k = false)
              (admin.Keys user)) by (rewrite Hak; exact Hforeign).
  unfold UserResource.Update. op_step. rewrite Hcall, Hsk. op_step.
  match goal with
  | |- context [UserResource.Update_keys _ _ _ ?d ?m0] =>
      destruct (Update_keys_foreign client user (admin.Keys user) d m0
                  Hexcl Hforeign')
        as (m1 & Hrun & Hcalls & Hstate & _)
  end.
  rewrite Hrun.
  unfold UserResource.Update_generate, UserResource.Update_create_key.
  repeat (progress (op_step; rewrite ?Hsk, ?Hak; cbn [IsUnknown ValueString])).
  specialize (Hfail (world m1)).
  destruct (Admin_CreateKey client
              (UserResource.CreateKey_request (admin.ID user) ak) (world m1))
    as [res w2]. cbn [fst] in Hfail. subst res. op_step.
  cbn [calls resp State app] in *. rewrite Hcalls, Hstate.
  repeat split. unfold diag.AddError. apply Append1_records.
Qed.

(** Draws that stay below the length of the alphabet give a string of the
    requested length over the alphabet, and touch neither the trace nor the
    response. *)
Lemma randomAccessKey_spec (n : nat) :
  (forall w, fst (rand_Intn client (String.length accessKeyBytes) w)
             < String.length accessKeyBytes) ->
  forall m : Machine W UserResourceModel,
    exists a m',
      UserResource.randomAccessKey client n m = (Val a, m')
      /\ String.length a = n
      /\ over_alphabet a = true
      /\ calls m' = calls m
      /\ resp m' = resp m.
Proof.
  intros Hrange. induction n as [| n IH]; intros m.
  - exists "", m. repeat split.
  - cbn [UserResource.randomAccessKey]. op_step.
    specialize (Hrange (world m)).
    destruct (rand_Intn client (String.length accessKeyBytes) (world m))
      as [i w']. cbn [fst] in Hrange.
    destruct (accessKeyBytes_get i Hrange) as (c & Hget & Hin).
    rewrite Hget.
    match goal with
    | |- context [UserResource.randomAccessKey _ _ ?m1] =>
        destruct (IH m1) as (a & m' & Hrun & Hlen & Halpha & Hcalls & Hresp)
    end.
    rewrite Hrun. exists (String c a), m'.
    cbn [String.length over_alphabet calls resp] in *.
    rewrite Hin, Halpha, Hlen. repeat split; assumption.
Qed.

(** X14.  Key generation with both the access key and the secret key
    unknown: when the random source stays in range, the step issues one
    remote call, the key creation for the user's id, and the access key
    that call carries has twenty bytes, each one of
    [0123456789ABCDEFGHIJKLMNOPQRSTUVWXYZ]. *)
Theorem Update_generates_access_key (user : admin.User)
  (data : UserResourceModel) (m : Machine W UserResourceModel) :
  IsUnknown (SecretKey data) = true ->
  IsUnknown (AccessKey data) = true ->
  (forall w, fst (rand_Intn client (String.length accessKeyBytes) w)
             < String.length accessKeyBytes) ->
  exists a,
    String.length a = 20
    /\ over_alphabet a = true
    /\ calls (snd (UserResource.Update_generate client user data m))
       = calls m
         ++ [CallCreateKey
               {| admin.UID := admin.ID user; admin.AccessKey := a;
                  admin.SecretKey := ""; admin.key_KeyType := "s3";
                  admin.key_GenerateKey := Some true |}].
Proof.
  intros Hsk Hak Hrange. unfold UserResource.Update_generate.
  rewrite Hsk, Hak. op_step.
  destruct (randomAccessKey_spec 20 Hrange m)
    as (a & m1 & Hrun & Hlen & Halpha & Hcalls & _).
  rewrite Hrun. exists a. split; [ exact Hlen | ]. split; [ exact Halpha | ].
  rewrite Update_create_key_calls, Hcalls. reflexivity.
Qed.

(** X15.  Delete of a user issues the single call that removes the user,
    with the purge flag 1 exactly when [purge_data_on_delete] is true, and
    never writes the record; it reports an error exactly when the remote
    error is something else than "no such user". *)
Theorem UserResource_Delete_call (data : UserResourceModel)
  (private : gmap string string) (w w' : W) (e : option error) :
  Admin_RemoveUser client (UserResource.Delete_request data) w = (e, w') ->
  let r := run (UserResource.Delete client data) private w in
  trace r = [CallRemoveUser (UserResource.Delete_request data)]
  /\ admin.ID (UserResource.Delete_request data) = ValueString (Id data)
  /\ admin.PurgeData (UserResource.Delete_request data)
     = Some (if ValueBool (PurgeDataOnDelete data) then 1 else 0)%Z
  /\ State (response r) = Untouched
  /\ diag.HasError (Diagnostics (response r))
     = match e with
       | Some err => negb (Is err admin.ErrNoSuchUser)
       | None => false
       end.
Proof.
  intros Hcall r. subst r. unfold UserResource.Delete. op_step. rewrite Hcall.
  destruct e as [err |]; [ destruct (Is err admin.ErrNoSuchUser) | ];
    repeat split.
Qed.

End UpdateGenerate.

(** ** Create followed by Read *)

Lemma Read_merge_identity (user : admin.User) (id : string)
  (data : UserResourceModel) :
  identity_of
    (UserResource.Read_attributes user (UserResource.splitIdentity id data))
  = identity_of (UserResource.splitIdentity id data).
Proof.
  unfold UserResource.Read_attributes.
  generalize (UserResource.splitIdentity id data). intros d.
  repeat match goal with
         | |- context [match ?x with _ => _ end] => destruct x
         end; reflexivity.
Qed.

Section CreateRead.

Context {W : Type} (client : RgwClient W).

(** The record Read saves when a remote key carries the recorded access
    key. *)
Lemma Read_matched_state (data : UserResourceModel)
  (private : gmap string string) (w w' : W) (user : admin.User)
  (ak : string) (k : admin.UserKeySpec) :
  ValueBool (GenerateS3Credentials data)
  || IsNull (GenerateS3Credentials data) = true ->
  AccessKey data = Known ak ->
  Admin_GetUser client (UserResource.Read_request data) w = (Ok user, w') ->
  admin.ID user = ValueString (Id data) ->
  find (has_access_key ak) (admin.Keys user) = Some k ->
  State (response (run (UserResource.Read client data) private w))
  = Saved
      (if (1 <? length (admin.Keys user))%nat
       then set_ExclusiveS3Credentials (Known false)
              (set_SecretKey (Known (admin.SecretKey k))
                 (Read_merged user data))
       else set_SecretKey (Known (admin.SecretKey k)) (Read_merged user data)).
Proof.
  intros Hgen Hak Hcall Hid Hfind.
  assert (Heq : String.eqb (ValueString (Id data)) (admin.ID user) = true)
    by (rewrite Hid; apply String.eqb_refl).
  unfold UserResource.Read, Read_merged. op_step.
  rewrite Hcall, Heq. cbn [negb]. op_step.
  rewrite Read_merge_generate, Hgen, Read_merge_AccessKey, Hak.
  cbn [IsNull IsUnknown orb]. rewrite Read_find_key_spec.
  rewrite Read_merge_AccessKey, Hak. cbn [ValueString]. rewrite Hfind.
  op_step. cbn [negb andb]. rewrite andb_false_r, orb_false_r.
  destruct (1 <? length (admin.Keys user))%nat; reflexivity.
Qed.

(** X16.  Create followed by Read: when the remote system keeps the id
    Create sent and returns the one generated key pair both times, Read of
    the record Create saved gives back the declared username and tenant
    (neither containing ['$'], the tenant set or absent), the id, the key
    pair and the exclusive flag as declared. *)
Theorem Create_then_Read (data : UserResourceModel)
  (private private1 : gmap string string) (w w1 w2 : W)
  (created user : admin.User) (k : admin.UserKeySpec) (username : string)
  (saved1 : UserResourceModel) :
  ValueBool (GenerateS3Credentials data)
  || IsNull (GenerateS3Credentials data) = true ->
  Username data = Known username ->
  strings.Contains username "$" = false ->
  IsUnknown (Tenant data) = false ->
  strings.Contains (ValueString (Tenant data)) "$" = false ->
  Admin_CreateUser client (UserResource.Create_request data) w
  = (Ok created, w1) ->
  admin.ID created = UserResource.rgwUserID data ->
  admin.Keys created = [k] ->
  State (response (run (UserResource.Create client data) private w))
  = Saved saved1 ->
  Admin_GetUser client (UserResource.Read_request saved1) w1 = (Ok user, w2) ->
  admin.ID user = UserResource.rgwUserID data ->
  admin.Keys user = [k] ->
  exists saved2,
    State (response (run (UserResource.Read client saved1) private1 w1))
    = Saved saved2
    /\ Id saved2 = Known (UserResource.rgwUserID data)
    /\ Username saved2 = Username data
    /\ Tenant saved2 = Tenant data
    /\ AccessKey saved2 = Known (admin.AccessKey k)
    /\ SecretKey saved2 = Known (admin.SecretKey k)
    /\ ExclusiveS3Credentials saved2 = ExclusiveS3Credentials data.
Proof.
  intros Hgen Hu Hufree Htenant Htfree Hcreate Hcid Hckeys Hsaved1
    Hget Huid Hukeys.
  revert Hsaved1. unfold UserResource.Create. op_step.
  rewrite Hcreate, Hgen, Hckeys, Hcid. op_step.
  intros Hsaved1. injection Hsaved1 as <-.
  match type of Hget with
  | Admin_GetUser _ (UserResource.Read_request ?s1) _ = _ =>
      pose proof (Read_matched_state s1 private1 w1 w2 user
                    (admin.AccessKey k) k Hgen eq_refl Hget Huid) as Hread
  end.
  rewrite Hukeys in Hread. cbn [find length Nat.ltb Nat.leb] in Hread.
  unfold has_access_key in Hread. rewrite String.eqb_refl in Hread.
  specialize (Hread eq_refl).
  eexists. split; [ exact Hread | ].
  unfold Read_merged. cbn [Id Username Tenant AccessKey SecretKey
                           ExclusiveS3Credentials set_SecretKey].
  rewrite Read_merge_AccessKey, Read_merge_Exclusive.
  match goal with
  | |- context [UserResource.Read_attributes user
                  (UserResource.splitIdentity ?id ?d)] =>
      pose proof (Read_merge_rest user id d) as Hrest;
      pose proof (Read_merge_identity user id d) as Hident
  end.
  cbv zeta in Hrest. destruct Hrest as (_ & _ & _ & _ & Hid & _).
  rewrite Hid. unfold identity_of in Hident.
  injection Hident as Hten Husr. rewrite Hten, Husr.
  assert (Hsplit :
            identity_of
              (UserResource.splitIdentity (admin.ID user)
                 (set_SecretKey (StringValue (admin.SecretKey k))
                    (set_AccessKey (StringValue (admin.AccessKey k))
                       (set_Id (StringValue (UserResource.rgwUserID data))
                          data))))
            = (Tenant data, Username data)).
  { rewrite Huid. unfold UserResource.rgwUserID. rewrite Hu.
    destruct (Tenant data) as [| | tenant]; cbn [IsNull ValueString] in *.
    - apply splitIdentity_bare. exact Hufree.
    - discriminate Htenant.
    - apply splitIdentity_qualified. exact Htfree. }
  unfold identity_of in Hsplit. injection Hsplit as Hten' Husr'.
  rewrite Hten', Husr'. repeat split.
Qed.

End CreateRead.

(** ** The bucket resource *)

Section BucketDetail.

Context {W : Type} (client : RgwClient W).

(** X17.  Create of a bucket issues the single call that creates the
    bucket named by the plan; on success it saves the record with that
    name as its id, on failure it records one error with the remote text
    and saves nothing. *)
Theorem BucketResource_Create_result (data : BucketResourceModel)
  (private : gmap string string) (w w' : W) (e : option error) :
  S3_CreateBucket client (ValueString (bucket_Name data)) w = (e, w') ->
  let r := run (BucketResource.Create client data) private w in
  trace r = [CallCreateBucket (ValueString (bucket_Name data))]
  /\ match e with
     | None =>
         State (response r)
         = Saved {| bucket_Id := Known (ValueString (bucket_Name data));
                    bucket_Name := bucket_Name data |}
         /\ Diagnostics (response r) = []
     | Some err =>
         State (response r) = Untouched
         /\ Diagnostics (response r)
            = [ {| diag.severity := diag.SeverityError;
                   diag.attribute := None;
                   diag.summary := "could not create bucket";
                   diag.detail := Error err |} ]
     end.
Proof.
  intros Hcall r. subst r. unfold BucketResource.Create. op_step.
  rewrite Hcall. destruct e as [err |]; op_step; repeat split.
Qed.

(** X18.  Create of a bucket followed by Read: when the bucket then
    exists, Read checks the bucket named by the saved id and saves the
    record Create saved, unchanged. *)
Theorem BucketResource_Create_then_Read (data saved1 : BucketResourceModel)
  (private private1 : gmap string string) (w w1 w2 : W) (name : string) :
  bucket_Name data = Known name ->
  S3_CreateBucket client name w = (None, w1) ->
  State (response (run (BucketResource.Create client data) private w))
  = Saved saved1 ->
  S3_HeadBucket client name w1 = (None, w2) ->
  let r := run (BucketResource.Read client saved1) private1 w1 in
  trace r = [CallHeadBucket name]
  /\ State (response r) = Saved saved1
  /\ saved1 = {| bucket_Id := Known name; bucket_Name := Known name |}
  /\ Diagnostics (response r) = [].
Proof.
  intros Hname Hcreate Hsaved1 Hhead r. subst r.
  revert Hsaved1. unfold BucketResource.Create. op_step.
  rewrite Hname. cbn [ValueString]. rewrite Hcreate. op_step.
  intros Hsaved1. injection Hsaved1 as <-.
  unfold BucketResource.Read. op_step. cbn [bucket_Id StringValue ValueString].
  rewrite Hhead. op_step. repeat split.
Qed.

End BucketDetail.

(** X19.  What Read does with a failed fetch.  Read of a user removes the
    stored record exactly when the error carries the admin reason
    [NoSuchUser].  Read of a bucket removes the stored record exactly when
    the error is an API error whose code is the literal ["404"]; the code
    ["NotFound"], under which the S3 client reports a missing bucket, is
    not that literal, so a missing bucket is reported as "could not head
    bucket" and its record stays.  Every error that does not remove the
    record is reported as an error, and the private state is never
    written. *)
Theorem Read_removes_only_when_not_found {W} (client : RgwClient W)
  (private : gmap string string) (w w' : W) (err : error) :
  (forall data : UserResourceModel,
     Admin_GetUser client (UserResource.Read_request data) w = (Err err, w') ->
     let r := run (UserResource.Read client data) private w in
     State (response r)
     = (if Is err admin.ErrNoSuchUser then Removed else Untouched)
     /\ diag.HasError (Diagnostics (response r))
        = negb (Is err admin.ErrNoSuchUser)
     /\ Private (response r) = private)
  /\ (forall data : BucketResourceModel,
        S3_HeadBucket client (ValueString (bucket_Id data)) w = (Some err, w') ->
        let r := run (BucketResource.Read client data) private w in
        let code_is_404 :=
          match As err with
          | Some code => String.eqb code "404"
          | None => false
          end in
        State (response r) = (if code_is_404 then Removed else Untouched)
        /\ diag.HasError (Diagnostics (response r)) = negb code_is_404
        /\ Private (response r) = private
        /\ (As err = Some "NotFound" ->
            State (response r) = Untouched
            /\ Diagnostics (response r)
               = [ {| diag.severity := diag.SeverityError;
                      diag.attribute := None;
                      diag.summary := "could not head bucket";
                      diag.detail := Error err |} ])).
Proof.
  split.
  - intros data Hcall r. subst r. unfold UserResource.Read. op_step.
    rewrite Hcall. destruct (Is err admin.ErrNoSuchUser); repeat split.
  - intros data Hcall r code_is_404. subst r code_is_404.
    unfold BucketResource.Read. op_step. rewrite Hcall.
    destruct (As err) as [code |]; [ | repeat split; discriminate ].
    split; [ | split; [ | split ] ].
    4: { intros Hcode. injection Hcode as ->. repeat split. }
    all: destruct (String.eqb code "404"); [ repeat split | ].
    all: destruct (String.eqb code "403"); repeat split.
Qed.

(** ** The bucket policy resource *)

Section BucketPolicyDetail.

Context {W : Type} (client : S3PolicyClient W).

(** X20.  Create and Update of a bucket policy replace the policy whole:
    each issues the same single put call with the planned bucket and
    policy text; on success Create saves the plan with the bucket name as
    id and Update saves the plan as it is; on failure each reports one
    error and saves nothing. *)
Theorem BucketPolicy_put (data : BucketPolicyResourceModel)
  (private : gmap string string) (w w' : W) (e : option error) :
  S3_PutBucketPolicy client (ValueString (policy_Bucket data))
    (ValueString (policy_Policy data)) w = (e, w') ->
  let c := run (BucketPolicyResource.Create client data) private w in
  let u := run (BucketPolicyResource.Update client data) private w in
  world (snd c) = w' /\ world (snd u) = w'
  /\ match e with
     | None =>
         State (response c)
         = Saved {| policy_Id := Known (ValueString (policy_Bucket data));
                    policy_Bucket := policy_Bucket data;
                    policy_Policy := policy_Policy data |}
         /\ State (response u) = Saved data
         /\ Diagnostics (response c) = [] /\ Diagnostics (response u) = []
     | Some err =>
         State (response c) = Untouched /\ State (response u) = Untouched
         /\ diag.HasError (Diagnostics (response c)) = true
         /\ diag.HasError (Diagnostics (response u)) = true
     end.
Proof.
  intros Hcall c u. subst c u.
  unfold BucketPolicyResource.Create, BucketPolicyResource.Update. op_step.
  rewrite Hcall. destruct e as [err |]; op_step; repeat split.
Qed.

(** X21.  Read of a bucket policy never removes the record: every remote
    error, "not found" included, is reported as an error (summary "acces
    denied" for code 403, "wrong identity" for code 405, "could not get
    bucket policy" otherwise) and leaves the record as it was. *)
Theorem BucketPolicy_Read_error (data : BucketPolicyResourceModel)
  (private : gmap string string) (w w' : W) (err : error) :
  S3_GetBucketPolicy client (ValueString (policy_Bucket data)) w
  = (Err err, w') ->
  let r := run (BucketPolicyResource.Read client data) private w in
  let code_is c :=
    match As err with
    | Some code => String.eqb code c
    | None => false
    end in
  State (response r) = Untouched
  /\ diag.HasError (Diagnostics (response r)) = true
  /\ exists d,
       Diagnostics (response r) = [d]
       /\ diag.summary d
          = if code_is "403" then "acces denied"
            else if code_is "405" then "wrong identity"
            else "could not get bucket policy".
Proof.
  intros Hcall r code_is. subst r code_is.
  unfold BucketPolicyResource.Read. op_step. rewrite Hcall.
  destruct (As err) as [code |];
    [ | op_step; repeat split; eexists; split; reflexivity ].
  destruct (String.eqb code "403"); [ | destruct (String.eqb code "405") ];
    op_step; repeat split; eexists; split; reflexivity.
Qed.

(** X22.  Create of a bucket policy followed by Read: when the remote
    system returns the policy text that was put, Read saves the record
    Create saved, unchanged; when the remote answer carries no policy text
    at all, Read panics. *)
Theorem BucketPolicy_Create_then_Read
  (data saved1 : BucketPolicyResourceModel)
  (private private1 : gmap string string) (w w1 w2 : W)
  (bucket policy : string) (res : option string) :
  policy_Bucket data = Known bucket ->
  policy_Policy data = Known policy ->
  S3_PutBucketPolicy client bucket policy w = (None, w1) ->
  State (response (run (BucketPolicyResource.Create client data) private w))
  = Saved saved1 ->
  S3_GetBucketPolicy client bucket w1 = (Ok res, w2) ->
  let r := run (BucketPolicyResource.Read client saved1) private1 w1 in
  saved1 = {| policy_Id := Known bucket; policy_Bucket := Known bucket;
              policy_Policy := Known policy |}
  /\ (res = Some policy ->
      State (response r) = Saved saved1 /\ Diagnostics (response r) = [])
  /\ (res = None ->
      panicked (outcome r) = true /\ State (response r) = Untouched).
Proof.
  intros Hbucket Hpolicy Hput Hsaved1 Hget r. subst r.
  revert Hsaved1. unfold BucketPolicyResource.Create. op_step.
  rewrite Hbucket, Hpolicy. cbn [ValueString]. rewrite Hput. op_step.
  intros Hsaved1. injection Hsaved1 as <-.
  unfold BucketPolicyResource.Read. op_step.
  cbn [policy_Bucket policy_Id ValueString]. rewrite Hget.
  split; [ reflexivity | ].
  split; intros ->; op_step; split; reflexivity.
Qed.

(** X23.  Delete of a bucket policy issues the single call that deletes
    the policy and reports every remote error: a policy that is already
    gone is not tolerated. *)
Theorem BucketPolicy_Delete_result (data : BucketPolicyResourceModel)
  (private : gmap string string) (w w' : W) (e : option error) :
  S3_DeleteBucketPolicy client (ValueString (policy_Bucket data)) w = (e, w') ->
  let r := run (BucketPolicyResource.Delete client data) private w in
  world (snd r) = w'
  /\ State (response r) = Untouched
  /\ Diagnostics (response r)
     = match e with
       | Some err =>
           [ {| diag.severity := diag.SeverityError; diag.attribute := None;
                diag.summary := "could not delete bucket policy";
                diag.detail := Error err |} ]
       | None => []
       end.
Proof.
  intros Hcall r. subst r. unfold BucketPolicyResource.Delete. op_step.
  rewrite Hcall. destruct e as [err |]; op_step; repeat split.
Qed.

End BucketPolicyDetail.

(** ** Instances of the properties above *)

Lemma Read_recovers_secret_witness :
  let client :=
    fixed_client (Ok (remote_alice [key "AK2" "SK2"; key "AK1" "SK1"])) None
      (Ok None) (fun _ => None) None in
  let r := run (UserResource.Read client
                  (alice Null Null (Known "AK1") Unknown)) ∅ tt in
  (exists saved,
     State (response r) = Saved saved
     /\ AccessKey saved = Known "AK1" /\ SecretKey saved = Known "SK1")
  /\ Diagnostics (response r) = [].
Proof.
  intros client r.
  destruct (Read_recovers_secret client
              (alice Null Null (Known "AK1") Unknown) ∅ tt tt
              (remote_alice [key "AK2" "SK2"; key "AK1" "SK1"])
              "AK1" (key "AK1" "SK1") eq_refl eq_refl eq_refl eq_refl eq_refl)
    as (Hsaved & _ & Hdiags & _).
  exact (conj Hsaved Hdiags).
Defined.

Lemma Read_key_not_found_witness :
  let client :=
    fixed_client (Ok (remote_alice [key "AK2" "SK2"])) None (Ok None)
      (fun _ => None) None in
  let r := run (UserResource.Read client
                  (alice Null Null (Known "AK1") (Known "SK1"))) ∅ tt in
  Private (response r) = <["mark_unknown_secret_key" := "1"]> ∅
  /\ plan_secret_key (Private (response r))
       {| ConfigValue := Null; PlanValue := Known "SK1";
          StateValue := Known "SK1" |}
     = Unknown.
Proof.
  intros client r.
  destruct (Read_key_not_found client
              (alice Null Null (Known "AK1") (Known "SK1")) ∅ tt tt
              (remote_alice [key "AK2" "SK2"]) "AK1"
              eq_refl eq_refl eq_refl eq_refl eq_refl)
    as (_ & Hprivate & Hplan).
  exact (conj Hprivate (proj1 (Hplan _))).
Defined.

Lemma Read_without_access_key_witness :
  let client :=
    fixed_client (Ok (remote_alice [key "AK2" "SK2"])) None (Ok None)
      (fun _ => None) None in
  let r := run (UserResource.Read client (alice Null Null Null Null)) ∅ tt in
  Private (response r)
  = <["mark_unknown_secret_key" := "1"]>
      (<["mark_unknown_access_key" := "1"]> ∅).
Proof.
  intros client r.
  exact (proj1 (proj2 (Read_without_access_key client
                         (alice Null Null Null Null) ∅ tt tt
                         (remote_alice [key "AK2" "SK2"])
                         eq_refl eq_refl eq_refl eq_refl))).
Defined.

Lemma Read_generation_off_witness :
  let client :=
    fixed_client (Ok (remote_alice [key "AK2" "SK2"])) None (Ok None)
      (fun _ => None) None in
  let r := run (UserResource.Read client
                  (alice (Known false) (Known true) (Known "AK1")
                     (Known "SK1")))
             (<["mark_unknown_secret_key" := "1"]> ∅) tt in
  exists saved,
    State (response r) = Saved saved
    /\ AccessKey saved = Null /\ SecretKey saved = Null
    /\ ExclusiveS3Credentials saved = Known true.
Proof.
  intros client r.
  exact (proj1 (Read_generation_off client
                  (alice (Known false) (Known true) (Known "AK1")
                     (Known "SK1"))
                  (<["mark_unknown_secret_key" := "1"]> ∅) tt tt
                  (remote_alice [key "AK2" "SK2"])
                  eq_refl eq_refl eq_refl)).
Defined.

Lemma Read_wrong_user_witness :
  let client :=
    fixed_client (Ok (remote_alice [])) None (Ok None) (fun _ => None) None in
  let r := run (UserResource.Read client
                  (set_Id (Known "bob") (alice Null Null Null Null))) ∅ tt in
  State (response r) = Untouched /\ Private (response r) = ∅.
Proof.
  intros client r.
  destruct (Read_wrong_user client
              (set_Id (Known "bob") (alice Null Null Null Null)) ∅ tt tt
              (remote_alice []) eq_refl ltac:(discriminate))
    as (Hstate & Hprivate & _).
  exact (conj Hstate Hprivate).
Defined.

Lemma Read_email_witness :
  let client :=
    fixed_client (Ok (remote_alice [])) None (Ok None) (fun _ => None) None in
  exists saved,
    State (response (run (UserResource.Read client
                            (alice Null Null Null Null)) ∅ tt))
    = Saved saved
    /\ Email saved = Null.
Proof.
  intros client.
  exact (Read_email client (alice Null Null Null Null) ∅ tt tt
           (remote_alice []) eq_refl eq_refl).
Defined.

Lemma Read_caps_witness :
  let client :=
    fixed_client (Ok (remote_alice [])) None (Ok None) (fun _ => None) None in
  let data :=
    set_Caps [ {| Type_ := Known "users"; Perm := Known "read" |} ]
      (alice Null Null Null Null) in
  exists saved,
    State (response (run (UserResource.Read client data) ∅ tt)) = Saved saved
    /\ Caps saved = [ {| Type_ := Known "users"; Perm := Known "read" |} ].
Proof.
  intros client data.
  destruct (Read_caps client data ∅ tt tt (remote_alice []) eq_refl eq_refl)
    as (saved & Hstate & Hkeep & _).
  exists saved. exact (conj Hstate (Hkeep eq_refl)).
Defined.

Lemma Read_attributes_saved_witness :
  let client :=
    fixed_client (Ok (remote_alice [])) None (Ok None) (fun _ => None) None in
  let data := set_MaxBuckets (Known 5%Z) (alice Null Null Null Null) in
  exists saved,
    State (response (run (UserResource.Read client data) ∅ tt)) = Saved saved
    /\ MaxBuckets saved = Known 1000%Z
    /\ Suspended saved = Known false
    /\ OpMask saved = Known "read, write, delete".
Proof.
  intros client data.
  destruct (Read_attributes_saved client data ∅ tt tt (remote_alice [])
              eq_refl eq_refl)
    as (saved & Hstate & _ & Hquota & Hsuspended & Hmask & _).
  exists saved.
  exact (conj Hstate (conj Hquota (conj Hsuspended Hmask))).
Defined.

Lemma first_call_failure_witness :
  let client :=
    fixed_client (Err (Other "refused")) None (Ok None) (fun _ => None) None in
  let data := alice Null Null Unknown Unknown in
  State (response (run (UserResource.Create client data) ∅ tt)) = Untouched
  /\ State (response (run (UserResource.Update client data) ∅ tt))
     = Untouched.
Proof.
  intros client data.
  destruct (first_call_failure client data ∅ tt tt (Other "refused"))
    as (Hcreate & Hupdate).
  exact (conj (proj1 (proj2 (Hcreate eq_refl)))
              (proj1 (proj2 (Hupdate eq_refl)))).
Defined.

Lemma Update_known_secret_witness :
  let client :=
    fixed_client (Ok (remote_alice [key "AK2" "SK2"])) None (Ok None)
      (fun _ => None) None in
  let data := alice Null Null (Known "AK1") (Known "SK1") in
  let r := run (UserResource.Update client data) ∅ tt in
  trace r = [CallModifyUser (UserResource.Update_request data)]
  /\ State (response r) = Saved data.
Proof.
  intros client data r.
  destruct (Update_known_secret client data ∅ tt tt
              (remote_alice [key "AK2" "SK2"]) eq_refl eq_refl)
    as (Htrace & Hstate & _).
  exact (conj Htrace Hstate).
Defined.

Lemma Update_recovers_secret_witness :
  let client :=
    fixed_client (Ok (remote_alice [key "AK2" "SK2"; key "AK1" "SK1"])) None
      (Ok None) (fun _ => None) None in
  let data := alice Null Null (Known "AK1") Unknown in
  let r := run (UserResource.Update client data) ∅ tt in
  State (response r) = Saved (alice Null Null (Known "AK1") (Known "SK1"))
  /\ trace r
     = [ CallModifyUser (UserResource.Update_request data);
         CallRemoveKey (admin.with_UID "alice" (key "AK2" "SK2")) ].
Proof.
  intros client data r.
  destruct (Update_recovers_secret client data ∅ tt tt
              (remote_alice [key "AK2" "SK2"; key "AK1" "SK1"])
              "AK1" (key "AK1" "SK1") eq_refl eq_refl eq_refl eq_refl)
    as (Hstate & _ & Htrace & _).
  exact (conj Hstate Htrace).
Defined.

Lemma Update_not_exclusive_keeps_keys_witness :
  let client :=
    fixed_client (Ok (remote_alice [key "AK2" "SK2"])) None
      (Ok (Some [key "AK1" "SK1"])) (fun _ => None) None in
  existsb is_remove_key
    (trace (run (UserResource.Update client
                   (alice Null (Known false) (Known "AK1") Unknown)) ∅ tt))
  = false.
Proof.
  intros client.
  exact (Update_not_exclusive_keeps_keys client
           (alice Null (Known false) (Known "AK1") Unknown) ∅ tt eq_refl).
Defined.

Lemma Update_key_creation_failure_witness :
  let client :=
    fixed_client (Ok (remote_alice [key "AK2" "SK2"])) None
      (Err (Other "quota")) (fun _ => None) None in
  let data := alice Null Null (Known "AK1") Unknown in
  let r := run (UserResource.Update client data) ∅ tt in
  outcome r = Return /\ State (response r) = Untouched.
Proof.
  intros client data r.
  destruct (Update_key_creation_failure client data ∅ tt tt
              (remote_alice [key "AK2" "SK2"]) "AK1" (Other "quota")
              eq_refl eq_refl eq_refl eq_refl
              ltac:(repeat constructor) (fun _ => eq_refl))
    as (Hout & Hstate & _).
  exact (conj Hout Hstate).
Defined.

Lemma Update_generates_access_key_witness :
  let client :=
    fixed_client (Ok (remote_alice [])) None (Ok None) (fun _ => None) None in
  exists a,
    a = "00000000000000000000"
    /\ String.length a = 20
    /\ over_alphabet a = true
    /\ calls (snd (UserResource.Update_generate client (remote_alice [])
                     (alice Null Null Unknown Unknown)
                     {| world := tt; calls := [];
                        resp := {| State := Untouched; Private := ∅;
                                   Diagnostics := [] |} |}))
       = [CallCreateKey
            {| admin.UID := "alice"; admin.AccessKey := a;
               admin.SecretKey := ""; admin.key_KeyType := "s3";
               admin.key_GenerateKey := Some true |}].
Proof.
  intros client.
  destruct (Update_generates_access_key client (remote_alice [])
              (alice Null Null Unknown Unknown)
              {| world := tt; calls := [];
                 resp := {| State := Untouched; Private := ∅;
                            Diagnostics := [] |} |}
              eq_refl eq_refl (fun _ => Nat.lt_0_succ 35))
    as (a & Hlen & Halpha & Hcalls).
  exists a. split; [ | split; [ exact Hlen | split; [ exact Halpha | exact Hcalls ] ] ].
  vm_compute in Hcalls. injection Hcalls as <-. reflexivity.
Defined.

Lemma UserResource_Delete_call_witness :
  let client :=
    fixed_client (Ok (remote_alice [])) (Some not_found) (Ok None)
      (fun _ => None) None in
  let data := alice Null Null Null Null in
  let r := run (UserResource.Delete client data) ∅ tt in
  trace r = [CallRemoveUser (UserResource.Delete_request data)]
  /\ diag.HasError (Diagnostics (response r)) = false.
Proof.
  intros client data r.
  destruct (UserResource_Delete_call client data ∅ tt tt (Some not_found)
              eq_refl)
    as (Htrace & _ & _ & _ & Herr).
  exact (conj Htrace Herr).
Defined.

Lemma Create_then_Read_witness :
  let client :=
    fixed_client (Ok (remote_alice [key "AK1" "SK1"])) None (Ok None)
      (fun _ => None) None in
  let saved1 := alice (Known true) Null (Known "AK1") (Known "SK1") in
  exists saved2,
    State (response (run (UserResource.Read client saved1) ∅ tt))
    = Saved saved2
    /\ Id saved2 = Known "alice"
    /\ Username saved2 = Known "alice"
    /\ Tenant saved2 = Null
    /\ AccessKey saved2 = Known "AK1"
    /\ SecretKey saved2 = Known "SK1"
    /\ ExclusiveS3Credentials saved2 = Null.
Proof.
  intros client saved1.
  exact (Create_then_Read client (alice (Known true) Null Unknown Unknown)
           ∅ ∅ tt tt tt
           (remote_alice [key "AK1" "SK1"]) (remote_alice [key "AK1" "SK1"])
           (key "AK1" "SK1") "alice" saved1
           eq_refl eq_refl eq_refl eq_refl eq_refl eq_refl eq_refl eq_refl
           eq_refl eq_refl eq_refl eq_refl).
Defined.

Lemma BucketResource_Create_result_witness :
  let client :=
    fixed_client (Ok (remote_alice [])) None (Ok None) (fun _ => None) None in
  let data := {| bucket_Id := Unknown; bucket_Name := Known "test" |} in
  let r := run (BucketResource.Create client data) ∅ tt in
  trace r = [CallCreateBucket "test"]
  /\ State (response r)
     = Saved {| bucket_Id := Known "test"; bucket_Name := Known "test" |}.
Proof.
  intros client data r.
  destruct (BucketResource_Create_result client data ∅ tt tt None eq_refl)
    as (Htrace & Hstate & _).
  exact (conj Htrace Hstate).
Defined.

Lemma BucketResource_Create_then_Read_witness :
  let client :=
    fixed_client (Ok (remote_alice [])) None (Ok None) (fun _ => None) None in
  let saved1 := {| bucket_Id := Known "test"; bucket_Name := Known "test" |} in
  let r := run (BucketResource.Read client saved1) ∅ tt in
  trace r = [CallHeadBucket "test"] /\ State (response r) = Saved saved1.
Proof.
  intros client saved1 r.
  destruct (BucketResource_Create_then_Read client
              {| bucket_Id := Unknown; bucket_Name := Known "test" |} saved1
              ∅ ∅ tt tt tt "test" eq_refl eq_refl eq_refl eq_refl)
    as (Htrace & Hstate & _).
  exact (conj Htrace Hstate).
Defined.

Lemma Read_removes_only_when_not_found_witness :
  let client :=
    fixed_client (Err (Other "timeout")) None (Ok None) (fun _ => None)
      (Some bucket_not_found) in
  let bucket := {| bucket_Id := Known "test"; bucket_Name := Known "test" |} in
  State (response (run (UserResource.Read client
                          (alice Null Null Null Null)) ∅ tt))
  = Untouched
  /\ State (response (run (BucketResource.Read client bucket) ∅ tt))
     = Untouched
  /\ Diagnostics (response (run (BucketResource.Read client bucket) ∅ tt))
     = [ {| diag.severity := diag.SeverityError; diag.attribute := None;
            diag.summary := "could not head bucket";
            diag.detail := "Not Found" |} ].
Proof.
  intros client bucket.
  destruct (Read_removes_only_when_not_found client ∅ tt tt (Other "timeout"))
    as (Huser & _).
  destruct (Read_removes_only_when_not_found client ∅ tt tt bucket_not_found)
    as (_ & Hbucket).
  destruct (Hbucket bucket eq_refl) as (_ & _ & _ & Hmissing).
  exact (conj (proj1 (Huser (alice Null Null Null Null) eq_refl))
              (Hmissing eq_refl)).
Defined.

Lemma BucketPolicy_put_witness :
  let data :=
    {| policy_Id := Unknown; policy_Bucket := Known "test";
       policy_Policy := Known "{}" |} in
  world (snd (run (BucketPolicyResource.Create policy_store data) ∅ None))
  = Some "{}"
  /\ world (snd (run (BucketPolicyResource.Update policy_store data) ∅ None))
     = Some "{}".
Proof.
  intros data.
  destruct (BucketPolicy_put policy_store data ∅ None (Some "{}") None eq_refl)
    as (Hcreate & Hupdate & _).
  exact (conj Hcreate Hupdate).
Defined.

Lemma BucketPolicy_Read_error_witness :
  let client :=
    fixed_policy_client None (Err (APIError "NoSuchBucketPolicy" "gone"))
      None in
  let data :=
    {| policy_Id := Known "test"; policy_Bucket := Known "test";
       policy_Policy := Known "{}" |} in
  let r := run (BucketPolicyResource.Read client data) ∅ tt in
  State (response r) = Untouched
  /\ diag.HasError (Diagnostics (response r)) = true.
Proof.
  intros client data r.
  destruct (BucketPolicy_Read_error client data ∅ tt tt
              (APIError "NoSuchBucketPolicy" "gone") eq_refl)
    as (Hstate & Herr & _).
  exact (conj Hstate Herr).
Defined.

Lemma BucketPolicy_Create_then_Read_witness :
  let saved1 :=
    {| policy_Id := Known "test"; policy_Bucket := Known "test";
       policy_Policy := Known "{}" |} in
  State (response (run (BucketPolicyResource.Read policy_store saved1) ∅
                     (Some "{}")))
  = Saved saved1
  /\ panicked
       (outcome (run (BucketPolicyResource.Read
                        (fixed_policy_client None (Ok None) None) saved1)
                   ∅ tt))
     = true.
Proof.
  intros saved1.
  destruct (BucketPolicy_Create_then_Read policy_store
              {| policy_Id := Unknown; policy_Bucket := Known "test";
                 policy_Policy := Known "{}" |} saved1
              ∅ ∅ None (Some "{}") (Some "{}") "test" "{}" (Some "{}")
              eq_refl eq_refl eq_refl eq_refl eq_refl)
    as (_ & Hsome & _).
  destruct (BucketPolicy_Create_then_Read
              (fixed_policy_client None (Ok None) None)
              {| policy_Id := Unknown; policy_Bucket := Known "test";
                 policy_Policy := Known "{}" |} saved1
              ∅ ∅ tt tt tt "test" "{}" None
              eq_refl eq_refl eq_refl eq_refl eq_refl)
    as (_ & _ & Hnone).
  exact (conj (proj1 (Hsome eq_refl)) (proj1 (Hnone eq_refl))).
Defined.

Lemma BucketPolicy_Delete_result_witness :
  let client :=
    fixed_policy_client None (Ok None)
      (Some (APIError "NoSuchBucketPolicy" "gone")) in
  let data :=
    {| policy_Id := Known "test"; policy_Bucket := Known "test";
       policy_Policy := Known "{}" |} in
  Diagnostics (response (run (BucketPolicyResource.Delete client data) ∅ tt))
  = [ {| diag.severity := diag.SeverityError; diag.attribute := None;
         diag.summary := "could not delete bucket policy";
         diag.detail := "gone" |} ].
Proof.
  intros client data.
  exact (proj2 (proj2 (BucketPolicy_Delete_result client data ∅ tt tt
                         (Some (APIError "NoSuchBucketPolicy" "gone"))
                         eq_refl))).
Defined.

(** ** The default modifiers, applied again *)

Lemma default_settles {A} (D : A) (config plan : Value A) :
  let planned := if sets_default config plan then Known D else plan in
  IsNull planned = false
  /\ (forall v, plan = Known v -> planned = Known v)
  /\ (if sets_default config planned then Known D else planned) = planned.
Proof.
  destruct config, plan; cbn; (split; [ reflexivity | ]);
    (split; [ intros v Hv; first [ discriminate Hv | exact Hv ]
            | reflexivity ]).
Qed.

(** X24.  For [op_mask], [max_buckets] and [suspended] alike: the planned
    value a default modifier leaves is never null, a known planned value
    is always left as it is, and running the modifier again on its own
    result changes nothing. *)
Theorem default_modifiers_settle
  (reqS : planmodifier.Request string) (reqI : planmodifier.Request Z)
  (reqB : planmodifier.Request bool) :
  let again {A} (req : planmodifier.Request A) (planned : Value A) :=
    {| ConfigValue := ConfigValue req; PlanValue := planned;
       StateValue := StateValue req |} in
  (IsNull (plan_op_mask reqS) = false
   /\ (forall v, PlanValue reqS = Known v -> plan_op_mask reqS = Known v)
   /\ plan_op_mask (again reqS (plan_op_mask reqS)) = plan_op_mask reqS)
  /\ (IsNull (plan_max_buckets reqI) = false
      /\ (forall v, PlanValue reqI = Known v ->
                    plan_max_buckets reqI = Known v)
      /\ plan_max_buckets (again reqI (plan_max_buckets reqI))
         = plan_max_buckets reqI)
  /\ (IsNull (plan_suspended reqB) = false
      /\ (forall v, PlanValue reqB = Known v -> plan_suspended reqB = Known v)
      /\ plan_suspended (again reqB (plan_suspended reqB))
         = plan_suspended reqB).
Proof.
  intros again. subst again.
  unfold plan_op_mask, plan_max_buckets, plan_suspended.
  rewrite !PlanModifyString_initial, !PlanModifyInt64_initial,
    !PlanModifyBool_initial.
  cbn [ConfigValue PlanValue StateValue].
  split; [ | split ].
  - apply (default_settles (string_Default op_mask_modifier)).
  - apply (default_settles (int64_Default max_buckets_modifier)).
  - apply (default_settles (bool_Default suspended_modifier)).
Qed.

Lemma default_modifiers_settle_witness :
  plan_op_mask {| ConfigValue := Null; PlanValue := Known "read";
                  StateValue := Known "read" |} = Known "read"
  /\ plan_max_buckets {| ConfigValue := Null; PlanValue := Known 500%Z;
                         StateValue := Known 500%Z |} = Known 500%Z
  /\ plan_suspended {| ConfigValue := Null; PlanValue := Known true;
                       StateValue := Known true |} = Known true.
Proof.
  pose proof
    (default_modifiers_settle
       {| ConfigValue := Null; PlanValue := Known "read";
          StateValue := Known "read" |}
       {| ConfigValue := Null; PlanValue := Known 500%Z;
          StateValue := Known 500%Z |}
       {| ConfigValue := Null; PlanValue := Known true;
          StateValue := Known true |})
    as [[_ [HS _]] [[_ [HI _]] [_ [HB _]]]].
  split; [ apply HS; reflexivity | ].
  split; [ apply HI; reflexivity | apply HB; reflexivity ].
Defined.
